(** * Hand-Gesture-Net: the gesture-classification core of [HandTracker]

    A shallow embedding of the per-frame pipeline of the [HandTracker]
    component (landmark smoother, finger-geometry analyser, decision
    table, sensitivity gate, gesture-history vote, frame driver) and the
    properties of it that the specification states.

    Modelling conventions.
    - A JavaScript [number] is a real number: the development speaks about
      finite values and exact arithmetic, so rounding, infinities and NaN
      are outside of it.
    - The two refs of the component ([gestureHistoryRef],
      [smoothedLandmarksRef]) form an explicit store that every callback
      threads; a callback either completes normally or throws a
      [TypeError] (a property read on [undefined]), and the store it has
      written up to that point stays written.
    - The React state values [sensitivity] and [smoothing] that the
      callbacks close over are section variables. *)

From Stdlib Require Import Reals Lra Lia String Ascii List Bool Arith DecimalString DecimalNat.
From stdpp Require Import base option list gmap.

Open Scope string_scope.
Open Scope R_scope.

(** ** Numbers *)

(** [a < b] and [a > b] on numbers, as the booleans the source branches on. *)
Definition Rltb (a b : R) : bool := if Rlt_dec a b then true else false.
Definition Rgtb (a b : R) : bool := if Rgt_dec a b then true else false.

(** JavaScript truthiness of an optional number: [undefined] and [0] are
    falsy, every other (finite) number is truthy. *)
Definition truthy (v : option R) : bool :=
  match v with
  | Some r => if Req_dec_T r 0 then false else true
  | None => false
  end.

(** ** Data model *)

(** [interface HandLandmark { x: number; y: number; z?: number }] *)
Record HandLandmark := mkLandmark { x : R; y : R; z : option R }.

(** [interface Hand { keypoints; handedness; score }] *)
Record Hand := mkHand {
  keypoints : list HandLandmark;
  handedness : string;
  score : R
}.

(** The refs of the component that the frame pipeline reads and writes.
    [smoothedLandmarksRef.current] is a JavaScript array indexed by hand
    slot that may have holes, hence a finite map from slots. *)
Record Refs := mkRefs {
  gestureHistoryRef : list string;
  smoothedLandmarksRef : gmap nat (list HandLandmark)
}.

(** ** Completions and the store monad *)

Inductive completion (A : Type) : Type :=
| Normal (a : A)
| TypeError.
Arguments Normal {A} a.
Arguments TypeError {A}.

Definition JS (A : Type) : Type := Refs -> completion A * Refs.

Definition ret {A} (a : A) : JS A := fun s => (Normal a, s).
Definition throw {A} : JS A := fun s => (TypeError, s).
Definition bind {A B} (m : JS A) (k : A -> JS B) : JS B :=
  fun s => match m s with
           | (Normal a, s') => k a s'
           | (TypeError, s') => (TypeError, s')
           end.
Definition get_refs : JS Refs := fun s => (Normal s, s).
Definition put_refs (s' : Refs) : JS unit := fun _ => (Normal tt, s').

Declare Scope js_scope.
Delimit Scope js_scope with js.
Notation "'let*' x ':=' m 'in' k" := (bind m (fun x => k))
  (at level 10, x pattern, m at level 100, k at level 200) : js_scope.
Notation "m ';;;' k" := (bind m (fun _ => k))
  (at level 100, k at level 200, right associativity) : js_scope.
Open Scope js_scope.

(** The same for pure code that can only throw; [oderef o] is a property
    read on [o], a [TypeError] when [o] is [undefined]. *)
Definition obind {A B} (m : completion A) (k : A -> completion B) : completion B :=
  match m with Normal a => k a | TypeError => TypeError end.
Definition oderef {A} (o : option A) : completion A :=
  match o with Some a => Normal a | None => TypeError end.
Definition lift {A} (c : completion A) : JS A := fun s => (c, s).

(** [Array.prototype.map((elem, i) => ...)] with a callback that may throw:
    elements are visited in index order, the first throw aborts. *)
Fixpoint map_from {A B} (f : A -> nat -> completion B) (i : nat) (l : list A)
  : completion (list B) :=
  match l with
  | [] => Normal []
  | a :: l' =>
      obind (f a i) (fun b =>
      obind (map_from f (S i) l') (fun bs => Normal (b :: bs)))
  end.
Definition array_map {A B} (f : A -> nat -> completion B) (l : list A) :=
  map_from f 0%nat l.

Section HandTracker.

(** [const [sensitivity, setSensitivity] = useState(0.7)],
    [const [smoothing, setSmoothing] = useState(0.8)]: the values the
    callbacks of one render close over. *)
Variable sensitivity : R.
Variable smoothing : R.

(** ** Landmark smoother *)

(** The body of the arrow function given to [currentLandmarks.map]. *)
Definition smooth_one (prev landmark : HandLandmark) : HandLandmark :=
  {| x := x prev * smoothing + x landmark * (1 - smoothing);
     y := y prev * smoothing + y landmark * (1 - smoothing);
     z := if truthy (z prev) && truthy (z landmark)
          then match z prev, z landmark with
               | Some pz, Some lz => Some (pz * smoothing + lz * (1 - smoothing))
               | _, _ => z landmark
               end
          else z landmark |}.

Definition smoothLandmarks (currentLandmarks : list HandLandmark) (handIndex : nat)
  : JS (list HandLandmark) :=
  let* refs := get_refs in
  match smoothedLandmarksRef refs !! handIndex with
  | None =>
      put_refs {| gestureHistoryRef := gestureHistoryRef refs;
                  smoothedLandmarksRef :=
                    <[handIndex := currentLandmarks]> (smoothedLandmarksRef refs) |};;;
      ret currentLandmarks
  | Some previous =>
      let* smoothed :=
        lift (array_map (fun landmark i =>
                obind (oderef (previous !! i)) (fun prev =>
                Normal (smooth_one prev landmark)))
              currentLandmarks) in
      put_refs {| gestureHistoryRef := gestureHistoryRef refs;
                  smoothedLandmarksRef :=
                    <[handIndex := smoothed]> (smoothedLandmarksRef refs) |};;;
      ret smoothed
  end.

(** ** Finger-geometry analyser *)

(** One iteration of the inner loop of [calculateFingerAngles]: the angle
    at [p2] between [p1] and [p3], in degrees.  The source divides by
    [mag1 * mag2]; when that product is zero the quotient is not a
    number, which is the [None] here. *)
Definition joint_angle (p1 p2 p3 : HandLandmark) : option R :=
  let v1x := x p1 - x p2 in let v1y := y p1 - y p2 in
  let v2x := x p3 - x p2 in let v2y := y p3 - y p2 in
  let dot := v1x * v2x + v1y * v2y in
  let mag1 := sqrt (v1x * v1x + v1y * v1y) in
  let mag2 := sqrt (v2x * v2x + v2y * v2y) in
  if Req_dec_T (mag1 * mag2) 0 then None
  else Some (acos (dot / (mag1 * mag2)) * (180 / PI)).

Definition fingerJoints : list (list nat) :=
  [ [1; 2; 3; 4]; [5; 6; 7; 8]; [9; 10; 11; 12]; [13; 14; 15; 16]; [17; 18; 19; 20] ]%nat.

(** [for (let i = 0; i < joints.length - 2; i++)] over one finger. *)
Definition finger_angles (landmarks : list HandLandmark) (joints : list nat)
  : completion (list (option R)) :=
  array_map (fun (_ : unit) i =>
      obind (oderef (joints !! i)) (fun j1 =>
      obind (oderef (joints !! S i)) (fun j2 =>
      obind (oderef (joints !! S (S i))) (fun j3 =>
      obind (oderef (landmarks !! j1)) (fun p1 =>
      obind (oderef (landmarks !! j2)) (fun p2 =>
      obind (oderef (landmarks !! j3)) (fun p3 =>
      Normal (joint_angle p1 p2 p3))))))))
    (repeat tt (length joints - 2)).

Definition calculateFingerAngles (landmarks : list HandLandmark)
  : completion (list (list (option R))) :=
  array_map (fun joints _ => finger_angles landmarks joints) fingerJoints.

(** The named landmarks that [detectAdvancedGesture] binds. *)
Record KeyLandmarks := mkKey {
  thumbTip : HandLandmark; indexTip : HandLandmark; middleTip : HandLandmark;
  ringTip : HandLandmark; pinkyTip : HandLandmark;
  thumbMcp : HandLandmark; indexMcp : HandLandmark; middleMcp : HandLandmark;
  ringMcp : HandLandmark; pinkyMcp : HandLandmark;
  wrist : HandLandmark
}.

(** [const thumbTip = landmarks[4]; ...].  The source reads a property of
    each of the ten finger landmarks unconditionally right after binding
    them, and of [wrist] only in the fist branch; [calculateFingerAngles]
    has by then read indices 1 to 20, so that a missing [wrist] cannot
    occur here and throwing at the binding is the same behaviour. *)
Definition key_landmarks (landmarks : list HandLandmark) : completion KeyLandmarks :=
  obind (oderef (landmarks !! 4%nat)) (fun thumbTip =>
  obind (oderef (landmarks !! 8%nat)) (fun indexTip =>
  obind (oderef (landmarks !! 12%nat)) (fun middleTip =>
  obind (oderef (landmarks !! 16%nat)) (fun ringTip =>
  obind (oderef (landmarks !! 20%nat)) (fun pinkyTip =>
  obind (oderef (landmarks !! 2%nat)) (fun thumbMcp =>
  obind (oderef (landmarks !! 5%nat)) (fun indexMcp =>
  obind (oderef (landmarks !! 9%nat)) (fun middleMcp =>
  obind (oderef (landmarks !! 13%nat)) (fun ringMcp =>
  obind (oderef (landmarks !! 17%nat)) (fun pinkyMcp =>
  obind (oderef (landmarks !! 0%nat)) (fun wrist =>
  Normal (mkKey thumbTip indexTip middleTip ringTip pinkyTip
                thumbMcp indexMcp middleMcp ringMcp pinkyMcp wrist)))))))))))).

Definition thumbExtended (k : KeyLandmarks) : bool :=
  Rgtb (x (thumbTip k)) (x (thumbMcp k) + 20).
Definition indexExtended (k : KeyLandmarks) : bool :=
  Rltb (y (indexTip k)) (y (indexMcp k) - 20).
Definition middleExtended (k : KeyLandmarks) : bool :=
  Rltb (y (middleTip k)) (y (middleMcp k) - 20).
Definition ringExtended (k : KeyLandmarks) : bool :=
  Rltb (y (ringTip k)) (y (ringMcp k) - 20).
Definition pinkyExtended (k : KeyLandmarks) : bool :=
  Rltb (y (pinkyTip k)) (y (pinkyMcp k) - 20).

Definition extendedFingers (k : KeyLandmarks) : list bool :=
  [thumbExtended k; indexExtended k; middleExtended k; ringExtended k; pinkyExtended k].

(** [extendedFingers.filter(Boolean).length] *)
Definition extendedCount (k : KeyLandmarks) : nat :=
  length (List.filter (fun b : bool => b) (extendedFingers k)).

(** [Math.sqrt(Math.pow(a.x - b.x, 2) + Math.pow(a.y - b.y, 2))] *)
Definition euclid (a b : HandLandmark) : R :=
  sqrt ((x a - x b) ^ 2 + (y a - y b) ^ 2).

(** ** Gesture classifier *)

(** Template literal [`${n}`] for a count. *)
Definition string_of_nat (n : nat) : string :=
  NilEmpty.string_of_uint (Nat.to_uint n).

(** The conditions of the pattern branches of the [if / else if] chain,
    in the order in which the chain tests them. *)
Definition is_pointing (k : KeyLandmarks) : bool :=
  indexExtended k && negb (middleExtended k) && negb (ringExtended k)
  && negb (pinkyExtended k).
Definition is_peace_sign (k : KeyLandmarks) : bool :=
  indexExtended k && middleExtended k && negb (ringExtended k)
  && negb (pinkyExtended k).
Definition is_thumbs_up (k : KeyLandmarks) : bool :=
  thumbExtended k && negb (indexExtended k) && negb (middleExtended k)
  && negb (ringExtended k) && negb (pinkyExtended k).
Definition is_ok_sign (k : KeyLandmarks) : bool :=
  thumbExtended k && indexExtended k && negb (middleExtended k)
  && negb (ringExtended k) && negb (pinkyExtended k).
Definition is_rock_sign (k : KeyLandmarks) : bool :=
  indexExtended k && pinkyExtended k && negb (middleExtended k)
  && negb (ringExtended k).
Definition is_call_me (k : KeyLandmarks) : bool :=
  thumbExtended k && pinkyExtended k && negb (indexExtended k)
  && negb (middleExtended k) && negb (ringExtended k).

(** The [if / else if] chain of [detectAdvancedGesture], lines 411-475:
    the label and confidence of the frame before the sensitivity gate.
    [gesture] starts as ['Unknown'] and [confidence] as [0]; a branch
    assigns them.  ([pointingAngle] and [thumbAngle] are computed by the
    source and never read.) *)
Definition decision_table (k : KeyLandmarks) : string * R :=
  let gesture := "Unknown" in
  let confidence := 0 in
  if (extendedCount k =? 0)%nat then
    let compactness := euclid (indexTip k) (wrist k) in
    ("Fist", Rmin 1 ((100 - compactness) / 50))
  else if (extendedCount k =? 5)%nat then
    let spread := euclid (thumbTip k) (pinkyTip k) in
    ("Open Hand", Rmin 1 (spread / 200))
  else if is_pointing k then
    ("Pointing", if indexExtended k then 0.9 else 0.5)
  else if is_peace_sign k then
    let separation := euclid (indexTip k) (middleTip k) in
    ("Peace Sign", Rmin 1 (separation / 50))
  else if is_thumbs_up k then
    ("Thumbs Up", if thumbExtended k then 0.85 else 0.4)
  else if is_ok_sign k then
    let distance := euclid (thumbTip k) (indexTip k) in
    if Rltb distance 30 then ("OK Sign", 0.8) else (gesture, confidence)
  else if is_rock_sign k then
    ("Rock Sign", 0.75)
  else if is_call_me k then
    ("Call Me", 0.7)
  else
    (string_of_nat (extendedCount k) ++ " Finger"
       ++ (if negb (extendedCount k =? 1)%nat then "s" else EmptyString),
     0.6).

(** Lines 477-481 of the component: [if (confidence < sensitivity) {...}]. *)
Definition apply_sensitivity (gc : string * R) : string * R :=
  if Rltb (snd gc) sensitivity then ("Uncertain", 0) else gc.

(** ** Gesture-history debouncer *)

(** Lines 483-487: [history.push(gesture); if (history.length > 5)
    history.shift()]. *)
Definition push_history (history : list string) (gesture : string) : list string :=
  let history := (history ++ [gesture])%list in
  if (5 <? length history)%nat then tail history else history.

(** [gestureCount] is a plain object used as a map from labels to
    counts.  Its own string keys are enumerated in the order in which
    they were first assigned, so it is a list of entries in that order.
    This is the behaviour of an object for keys that are neither array
    indices (which enumerate first, in numeric order) nor names inherited
    from [Object.prototype]; see [plain_label]. *)
Definition JSObject : Type := list (string * nat).

(** [obj[key]] *)
Fixpoint obj_get (obj : JSObject) (key : string) : option nat :=
  match obj with
  | [] => None
  | (k, v) :: obj' => if String.eqb k key then Some v else obj_get obj' key
  end.

(** [obj[key] = v]: an existing key keeps its place, a new key goes last. *)
Fixpoint obj_set (obj : JSObject) (key : string) (v : nat) : JSObject :=
  match obj with
  | [] => [(key, v)]
  | (k, w) :: obj' =>
      if String.eqb k key then (k, v) :: obj' else (k, w) :: obj_set obj' key v
  end.

(** [v || 0] for a count that may be [undefined]. *)
Definition or_zero (v : option nat) : nat :=
  match v with
  | Some (S n) => S n
  | _ => 0%nat
  end.

(** [a > b] where either side may be [undefined] (then it is [false]). *)
Definition count_gt (a b : option nat) : bool :=
  match a, b with
  | Some m, Some n => (n <? m)%nat
  | _, _ => false
  end.

(** [history.reduce((acc, g) => { acc[g] = (acc[g] || 0) + 1; return acc; }, {})] *)
Definition gestureCount (history : list string) : JSObject :=
  fold_left (fun acc g => obj_set acc g (or_zero (obj_get acc g) + 1)%nat) history [].

(** [Array.prototype.reduce] without an initial value: the first element
    seeds the accumulator, an empty array is a [TypeError]. *)
Definition reduce1 {A} (f : A -> A -> A) (l : list A) : completion A :=
  match l with
  | [] => TypeError
  | a :: l' => Normal (fold_left f l' a)
  end.

(** Lines 489-497:
    [Object.entries(gestureCount).reduce((a, b) =>
       gestureCount[a[0]] > gestureCount[b[0]] ? a : b)[0]]. *)
Definition mostCommon (history : list string) : completion string :=
  let gc := gestureCount history in
  obind (reduce1 (fun a b =>
                    if count_gt (obj_get gc (fst a)) (obj_get gc (fst b)) then a else b)
                 gc)
        (fun e => Normal (fst e)).

(** ** The per-frame callbacks *)

Record HandData := mkHandData {
  hd_landmarks : list HandLandmark;
  hd_angles : list (list (option R));
  hd_extendedFingers : list bool;
  hd_handedness : string
}.

Record GestureResult := mkResult {
  gesture : string;
  confidence : R;
  handData : option HandData
}.

Definition detectAdvancedGesture (hands : list Hand) : JS GestureResult :=
  match hands with
  | [] => ret {| gesture := "No hands detected"; confidence := 0; handData := None |}
  | hand :: _ =>
      let* landmarks := smoothLandmarks (keypoints hand) 0%nat in
      let* angles := lift (calculateFingerAngles landmarks) in
      let* k := lift (key_landmarks landmarks) in
      let gc := apply_sensitivity (decision_table k) in
      let* refs := get_refs in
      let history := push_history (gestureHistoryRef refs) (fst gc) in
      put_refs {| gestureHistoryRef := history;
                  smoothedLandmarksRef := smoothedLandmarksRef refs |};;;
      let* winner := lift (mostCommon history) in
      ret {| gesture := winner;
             confidence := Rmax 0 (Rmin 1 (snd gc));
             handData := Some {| hd_landmarks := landmarks;
                                 hd_angles := angles;
                                 hd_extendedFingers := extendedFingers k;
                                 hd_handedness := handedness hand |} |}
  end.

Definition connections : list (nat * nat) :=
  [ (0, 1); (1, 2); (2, 3); (3, 4);
    (0, 5); (5, 6); (6, 7); (7, 8);
    (0, 9); (9, 10); (10, 11); (11, 12);
    (0, 13); (13, 14); (14, 15); (15, 16);
    (0, 17); (17, 18); (18, 19); (19, 20);
    (5, 9); (9, 13); (13, 17) ]%nat.

(** [connections.forEach(([start, end]) => ...)] reads [x] and [y] of
    [landmarks[start]] and [landmarks[end]]: it completes normally when
    both ends of every connection are there. *)
Definition skeleton_readable (landmarks : list HandLandmark) : bool :=
  forallb (fun c : nat * nat =>
             bool_decide (is_Some (landmarks !! fst c))
             && bool_decide (is_Some (landmarks !! snd c))) connections.
Arguments skeleton_readable : simpl never.

(** The part of the [hands.forEach] callback of [drawAdvancedHands] that
    concerns the store and the completion: the hand is smoothed into its
    slot, then the skeleton is drawn.  The canvas itself is not
    modelled. *)
Fixpoint draw_from (handIndex : nat) (hands : list Hand) : JS unit :=
  match hands with
  | [] => ret tt
  | hand :: rest =>
      let* landmarks := smoothLandmarks (keypoints hand) handIndex in
      (if skeleton_readable landmarks then ret tt else throw);;;
      draw_from (S handIndex) rest
  end.

(** [canvasReady] stands for the two guards at the top of
    [drawAdvancedHands]: the canvas and video elements are mounted and
    [canvas.getContext('2d')] is not null. *)
Definition drawAdvancedHands (canvasReady : bool) (hands : list Hand) : JS unit :=
  if canvasReady then draw_from 0 hands else ret tt.

(** A call of the [onGestureDetected] prop. *)
Record Emitted := mkEmitted {
  e_gesture : string;
  e_confidence : R;
  e_handData : option HandData
}.

(** The body of [detectHands] for a frame that passes the guard at its
    top, from the point where [estimateHands] has returned [hands]: the
    call of [onGestureDetected] it makes, if any, and the store it
    leaves.  A throw inside the [try] is caught and logged, which ends
    the frame's processing.  ([setHands] and the FPS bookkeeping touch
    neither ref and are left out.) *)
Definition detectHands (canvasReady : bool) (hands : list Hand) (refs : Refs)
  : option Emitted * Refs :=
  if (0 <? length hands)%nat then
    match detectAdvancedGesture hands refs with
    | (Normal r, refs1) =>
        (Some (mkEmitted (gesture r) (confidence r) (handData r)),
         snd (drawAdvancedHands canvasReady hands refs1))
    | (TypeError, refs1) => (None, refs1)
    end
  else
    (Some (mkEmitted "No hands detected" 0 None),
     snd (drawAdvancedHands canvasReady hands refs)).

End HandTracker.

(** [startTracking] / [resetTracking]: both refs are emptied. *)
Definition startTracking : Refs :=
  {| gestureHistoryRef := []; smoothedLandmarksRef := ∅ |}.

(** ** Vocabulary used by the statements *)

(** The own keys of an object, in enumeration order. *)
Definition keys (obj : JSObject) : list string := map fst obj.

(** How many entries of the history carry the label [g]. *)
Definition occurrences (g : string) (history : list string) : nat :=
  count_occ string_dec history g.

Definition is_digit (c : ascii) : bool :=
  (48 <=? nat_of_ascii c)%nat && (nat_of_ascii c <=? 57)%nat.

Fixpoint all_digits (s : string) : bool :=
  match s with
  | EmptyString => true
  | String c s' => is_digit c && all_digits s'
  end.

Definition prototype_names : list string :=
  [ "constructor"; "__proto__"; "hasOwnProperty"; "isPrototypeOf";
    "propertyIsEnumerable"; "toLocaleString"; "toString"; "valueOf";
    "__defineGetter__"; "__defineSetter__"; "__lookupGetter__"; "__lookupSetter__" ].

(** Labels for which [JSObject] is the behaviour of a plain object: not
    an array index, not a name found on [Object.prototype]. *)
Definition plain_label (s : string) : bool :=
  negb (all_digits s) && negb (existsb (String.eqb s) prototype_names).

(** The labels that the decision table can be shown to produce. *)
Definition table_labels : list string :=
  [ "Fist"; "Open Hand"; "Pointing"; "Peace Sign"; "Thumbs Up"; "Rock Sign";
    "Call Me"; "1 Finger"; "2 Fingers"; "3 Fingers"; "4 Fingers" ].

(** A landmark without depth, and a frame that is [base] everywhere
    except at the listed indices. *)
Definition pt (a b : R) : HandLandmark := mkLandmark a b None.

Definition frame_of (base : HandLandmark) (moved : list (nat * HandLandmark))
  : list HandLandmark :=
  fold_right (fun m l => <[fst m := snd m]> l) (replicate 21 base) moved.

(** A hand with thumb and index extended, their tips 25 apart. *)
Definition ok_sign_frame : list HandLandmark :=
  frame_of (pt 0 0) [ (4%nat, pt 30 0); (8%nat, pt 30 (-25)) ].

(** A closed hand: every landmark at the origin. *)
Definition fist_frame : list HandLandmark := frame_of (pt 0 0) [].

(** A hand with only the index extended, far out. *)
Definition pointing_frame : list HandLandmark :=
  frame_of (pt 0 0) [ (8%nat, pt 0 (-200)) ].

(** A hand with middle, ring and pinky extended, far out. *)
Definition three_finger_frame : list HandLandmark :=
  frame_of (pt 0 0)
    [ (12%nat, pt 0 (-200)); (16%nat, pt 0 (-200)); (20%nat, pt 0 (-200)) ].

(** Every stored slot holds 21 landmarks. *)
Definition slots_ok (refs : Refs) : Prop :=
  forall i prev, smoothedLandmarksRef refs !! i = Some prev -> length prev = 21%nat.

Definition hand_of (frame : list HandLandmark) : Hand :=
  {| keypoints := frame; handedness := "Right"; score := 1 |}.

(** The store after a run of processed frames. *)
Definition run_frames (sensitivity smoothing : R) (canvasReady : bool)
    (frames : list (list Hand)) (refs : Refs) : Refs :=
  fold_left (fun s hands => snd (detectHands sensitivity smoothing canvasReady hands s))
            frames refs.

(** Pushing a sequence of raw labels, one frame after the other. *)
Definition push_all (history : list string) (labels : list string) : list string :=
  fold_left push_history labels history.


(** What a run of processed frames emits, frame by frame. *)
Fixpoint run_events (sensitivity smoothing : R) (canvasReady : bool)
    (frames : list (list Hand)) (refs : Refs) : list (option Emitted) :=
  match frames with
  | [] => []
  | hands :: frames' =>
      fst (detectHands sensitivity smoothing canvasReady hands refs)
      :: run_events sensitivity smoothing canvasReady frames'
           (snd (detectHands sensitivity smoothing canvasReady hands refs))
  end.

(** The count-based labels of the last branch of the decision table. *)
Definition fallback_labels : list string :=
  [ "1 Finger"; "2 Fingers"; "3 Fingers"; "4 Fingers" ].

(** Every label that can reach [onGestureDetected]. *)
Definition emitted_labels : list string :=
  (table_labels ++ [ "Uncertain"; "No hands detected" ])%list.

(** A joint angle that is a number lies between 0 and 180 degrees. *)
Definition angle_in_range (a : option R) : Prop :=
  match a with
  | Some v => 0 <= v <= 180
  | None => True
  end.

(** Two stores that agree on what the classification of a frame reads:
    the gesture history and the smoothing state of slot 0. *)
Definition same_view (refs1 refs2 : Refs) : Prop :=
  gestureHistoryRef refs1 = gestureHistoryRef refs2 /\
  smoothedLandmarksRef refs1 !! 0%nat = smoothedLandmarksRef refs2 !! 0%nat.

(** ** The application state ([App.tsx]) *)

Module App.

(** The [useState] cells of [App] that [handleGestureDetected] writes. *)
Record State := mkState {
  currentGesture : string;
  gestureHistory : list string;
  totalGestures : nat;
  confidenceScores : list R;
  handsDetected : nat;
  currentConfidence : R;
  handData : option HandData
}.

(** The initial values given to [useState]. *)
Definition initial : State :=
  {| currentGesture := "No hands detected"; gestureHistory := [];
     totalGestures := 0; confidenceScores := []; handsDetected := 0;
     currentConfidence := 0; handData := None |}.

(** [handleGestureDetected(gesture, confidence = 0, handAnalysis = null)].
    [seen] is the value of [currentGesture] that the callback closes
    over (it is rebuilt by [useCallback] when [currentGesture] changes);
    the updater functions [prev => ...] act on the state as it is. *)
Definition handleGestureDetected (seen : string)
    (gesture : string) (confidence : option R) (handAnalysis : option HandData)
    (st : State) : State :=
  let confidence := default 0 confidence in
  if negb (String.eqb gesture seen) then
    let st := {| currentGesture := gesture;
                 gestureHistory := gestureHistory st;
                 totalGestures := totalGestures st;
                 confidenceScores := confidenceScores st;
                 handsDetected := handsDetected st;
                 currentConfidence := confidence;
                 handData := handAnalysis |} in
    if negb (String.eqb gesture "No hands detected")
       && negb (String.eqb gesture "Uncertain") then
      {| currentGesture := currentGesture st;
         gestureHistory := (gestureHistory st ++ [gesture])%list;
         totalGestures := totalGestures st + 1;
         confidenceScores := (confidenceScores st ++ [confidence])%list;
         handsDetected := handsDetected st + 1;
         currentConfidence := currentConfidence st;
         handData := handData st |}
    else st
  else
    {| currentGesture := currentGesture st;
       gestureHistory := gestureHistory st;
       totalGestures := totalGestures st;
       confidenceScores := confidenceScores st;
       handsDetected := handsDetected st;
       currentConfidence := confidence;
       handData := handAnalysis |}.

(** [confidenceScores.length > 0
      ? confidenceScores.reduce((a, b) => a + b, 0) / confidenceScores.length : 0] *)
Definition averageConfidence (confidenceScores : list R) : R :=
  if (0 <? length confidenceScores)%nat
  then fold_left Rplus confidenceScores 0 / INR (length confidenceScores)
  else 0.

(** One call of the handler as the tracker makes it. *)
Record Call := mkCall {
  c_seen : string;
  c_gesture : string;
  c_confidence : option R;
  c_handData : option HandData
}.

Definition handle (st : State) (c : Call) : State :=
  handleGestureDetected (c_seen c) (c_gesture c) (c_confidence c) (c_handData c) st.

(** The counters move together with the history. *)
Definition in_step (st : State) : Prop :=
  totalGestures st = length (gestureHistory st) /\
  handsDetected st = length (gestureHistory st) /\
  length (confidenceScores st) = length (gestureHistory st).

End App.

(** ** The gesture panel ([GestureDisplay]) *)

Module GestureDisplay.

(** [String.prototype.toLowerCase] on the ASCII letters. *)
Definition lower_ascii (c : ascii) : ascii :=
  let n := nat_of_ascii c in
  if (65 <=? n)%nat && (n <=? 90)%nat then ascii_of_nat (n + 32) else c.

Fixpoint toLowerCase (s : string) : string :=
  match s with
  | EmptyString => EmptyString
  | String c s' => String (lower_ascii c) (toLowerCase s')
  end.

Definition default_icon : string := "🤚".

Definition getGestureIcon (gesture : string) : string :=
  let g := toLowerCase gesture in
  if String.eqb g "fist" then "✊" else
  if String.eqb g "open hand" then "✋" else
  if String.eqb g "pointing" then "👉" else
  if String.eqb g "peace sign" then "✌️" else
  if String.eqb g "thumbs up" then "👍" else
  if String.eqb g "ok sign" then "👌" else
  if String.eqb g "rock sign" then "🤘" else
  if String.eqb g "call me" then "🤙" else
  if String.eqb g "1 finger" then "☝️" else
  if String.eqb g "2 fingers" then "✌️" else
  if String.eqb g "3 fingers" then "🤟" else
  if String.eqb g "4 fingers" then "🖖" else
  if String.eqb g "5 fingers" then "✋" else
  if String.eqb g "no hands detected" then "❌" else
  if String.eqb g "uncertain" then "❓" else
  default_icon.

Definition default_color : string := "bg-gray-100 text-gray-800 border-gray-200".

Definition getGestureColor (gesture : string) : string :=
  let g := toLowerCase gesture in
  if String.eqb g "fist" then "bg-red-100 text-red-800 border-red-200" else
  if String.eqb g "open hand" then "bg-green-100 text-green-800 border-green-200" else
  if String.eqb g "pointing" then "bg-blue-100 text-blue-800 border-blue-200" else
  if String.eqb g "peace sign" then "bg-purple-100 text-purple-800 border-purple-200" else
  if String.eqb g "thumbs up" then "bg-yellow-100 text-yellow-800 border-yellow-200" else
  if String.eqb g "ok sign" then "bg-indigo-100 text-indigo-800 border-indigo-200" else
  if String.eqb g "rock sign" then "bg-pink-100 text-pink-800 border-pink-200" else
  if String.eqb g "call me" then "bg-cyan-100 text-cyan-800 border-cyan-200" else
  if String.eqb g "no hands detected" then "bg-gray-100 text-gray-800 border-gray-200" else
  if String.eqb g "uncertain" then "bg-orange-100 text-orange-800 border-orange-200" else
  default_color.

(** [a >= b] on numbers. *)
Definition Rgeb (a b : R) : bool := if Rge_dec a b then true else false.

Definition getConfidenceColor (conf : R) : string :=
  if Rgeb conf 0.8 then "text-green-600"
  else if Rgeb conf 0.6 then "text-yellow-600"
  else if Rgeb conf 0.4 then "text-orange-600"
  else "text-red-600".

Definition getConfidenceLabel (conf : R) : string :=
  if Rgeb conf 0.8 then "High"
  else if Rgeb conf 0.6 then "Medium"
  else if Rgeb conf 0.4 then "Low"
  else "Very Low".

(** The class of the confidence bar, from the nested conditional in the
    markup. *)
Definition barColor (confidence : R) : string :=
  if Rgeb confidence 0.8 then "bg-green-500"
  else if Rgeb confidence 0.6 then "bg-yellow-500"
  else if Rgeb confidence 0.4 then "bg-orange-500"
  else "bg-red-500".

End GestureDisplay.

(** ** The statistics panel ([Stats]) *)

Module Stats.

(** [String.prototype.padStart(n, c)] for a one-character pad. *)
Definition padStart (n : nat) (c : ascii) (s : string) : string :=
  string_of_list_ascii (List.repeat c (n - String.length s)) ++ s.

(** [formatTime], on the whole seconds that [sessionTime] counts:
    [`${Math.floor(seconds / 60)}:${(seconds % 60).toString().padStart(2, '0')}`]. *)
Definition formatTime (seconds : nat) : string :=
  let mins := (seconds / 60)%nat in
  let secs := (seconds mod 60)%nat in
  string_of_nat mins ++ ":" ++ padStart 2 "0" (string_of_nat secs).

(** Reading a displayed time back: the text before the first colon and
    the text after it, as decimal numbers. *)
Fixpoint split_colon (s : string) : option (string * string) :=
  match s with
  | EmptyString => None
  | String c s' =>
      if Ascii.eqb c ":" then Some (EmptyString, s')
      else match split_colon s' with
           | Some (a, b) => Some (String c a, b)
           | None => None
           end
  end.

Definition parse_nat (s : string) : option nat :=
  match NilEmpty.uint_of_string s with
  | Some d => Some (Nat.of_uint d)
  | None => None
  end.

Definition parseTime (s : string) : option nat :=
  match split_colon s with
  | Some (m, sec) =>
      match parse_nat m, parse_nat sec with
      | Some a, Some b => Some (a * 60 + b)%nat
      | _, _ => None
      end
  | None => None
  end.

End Stats.

(** [<HandTracker onGestureDetected={handleGestureDetected} />]: an
    event of the tracker reaches the handler of the application, which
    has closed over some value [seen] of [currentGesture]. *)
Definition deliver (st : App.State) (p : string * option Emitted) : App.State :=
  match snd p with
  | Some e =>
      App.handleGestureDetected (fst p) (e_gesture e) (Some (e_confidence e))
                                (e_handData e) st
  | None => st
  end.

(** * Properties *)

(** ** The gesture-history vote *)

Lemma obj_get_set (obj : JSObject) (k k' : string) (v : nat) :
  obj_get (obj_set obj k v) k' = if String.eqb k k' then Some v else obj_get obj k'.
Proof.
  induction obj as [|[k0 w] obj IH]; simpl.
  - reflexivity.
  - destruct (String.eqb_spec k0 k) as [->|Hne]; simpl.
    + destruct (String.eqb_spec k k'); reflexivity.
    + rewrite IH. destruct (String.eqb_spec k0 k') as [->|]; [|reflexivity].
      destruct (String.eqb_spec k k'); congruence.
Qed.

Lemma obj_get_None (obj : JSObject) (k : string) :
  obj_get obj k = None <-> ~ In k (keys obj).
Proof.
  induction obj as [|[k0 w] obj IH]; simpl.
  - tauto.
  - destruct (String.eqb_spec k0 k) as [->|Hne].
    + split; [discriminate | tauto].
    + rewrite IH. tauto.
Qed.

Lemma keys_set_old (obj : JSObject) (k : string) (v : nat) :
  In k (keys obj) -> keys (obj_set obj k v) = keys obj.
Proof.
  induction obj as [|[k0 w] obj IH]; simpl; [tauto|].
  intros Hin. destruct (String.eqb_spec k0 k) as [->|Hne]; simpl.
  - reflexivity.
  - f_equal. apply IH. tauto.
Qed.

Lemma keys_set_new (obj : JSObject) (k : string) (v : nat) :
  ~ In k (keys obj) -> keys (obj_set obj k v) = (keys obj ++ [k])%list.
Proof.
  induction obj as [|[k0 w] obj IH]; simpl; [reflexivity|].
  intros Hin. destruct (String.eqb_spec k0 k) as [->|Hne]; simpl.
  - tauto.
  - f_equal. apply IH. tauto.
Qed.

Lemma gestureCount_snoc (h : list string) (g : string) :
  gestureCount (h ++ [g]) =
  obj_set (gestureCount h) g (or_zero (obj_get (gestureCount h) g) + 1)%nat.
Proof. unfold gestureCount. rewrite fold_left_app. reflexivity. Qed.

Lemma occurrences_snoc (g g' : string) (h : list string) :
  occurrences g (h ++ [g']) =
  (occurrences g h + if String.eqb g' g then 1 else 0)%nat.
Proof.
  unfold occurrences. rewrite count_occ_app. simpl.
  destruct (string_dec g' g) as [->|Hne].
  - rewrite String.eqb_refl. reflexivity.
  - destruct (String.eqb_spec g' g); [contradiction | reflexivity].
Qed.

(** The object built by the first [reduce] holds, for every label of the
    history, the number of its occurrences, and nothing else. *)
Lemma gestureCount_get (h : list string) (g : string) :
  obj_get (gestureCount h) g =
  if (occurrences g h =? 0)%nat then None else Some (occurrences g h).
Proof.
  induction h as [|g' h IH] using rev_ind.
  - reflexivity.
  - rewrite gestureCount_snoc, obj_get_set, occurrences_snoc.
    destruct (String.eqb_spec g' g) as [->|Hne].
    + rewrite IH.
      destruct (occurrences g h) as [|n]; simpl; [reflexivity|].
      destruct (n + 1 =? 0)%nat eqn:E; [apply Nat.eqb_eq in E; lia | reflexivity].
    + rewrite IH, Nat.add_0_r. reflexivity.
Qed.

Lemma occurrences_pos (g : string) (h : list string) :
  In g h <-> (0 < occurrences g h)%nat.
Proof. unfold occurrences. rewrite (count_occ_In string_dec). lia. Qed.

Lemma keys_gestureCount (h : list string) (g : string) :
  In g (keys (gestureCount h)) <-> In g h.
Proof.
  rewrite (occurrences_pos g h).
  destruct (obj_get_None (gestureCount h) g) as [H1 H2].
  rewrite gestureCount_get in H1, H2.
  destruct (occurrences g h) as [|n] eqn:E; simpl in *.
  - split; [intros Hin; exfalso; exact (H1 eq_refl Hin) | lia].
  - split; [lia | intros _].
    destruct (in_dec string_dec g (keys (gestureCount h))) as [|Hn]; [assumption|].
    specialize (H2 Hn). discriminate.
Qed.

(** The keys of the object are enumerated in the order in which the
    labels first occur in the history. *)
Lemma keys_first_occurrence (h : list string) :
  forall l1 w l2, keys (gestureCount h) = (l1 ++ w :: l2)%list ->
  exists h1 h2, h = (h1 ++ w :: h2)%list /\ ~ In w h1 /\ (forall g, In g l1 -> In g h1).
Proof.
  induction h as [|g h IH] using rev_ind; intros l1 w l2 Hk.
  - destruct l1; discriminate.
  - rewrite gestureCount_snoc in Hk.
    destruct (in_dec string_dec g (keys (gestureCount h))) as [Hin|Hnin].
    + rewrite keys_set_old in Hk by assumption.
      destruct (IH _ _ _ Hk) as (h1 & h2 & -> & Hw & Hl).
      exists h1, (h2 ++ [g])%list. rewrite <- app_assoc. simpl. auto.
    + rewrite keys_set_new in Hk by assumption.
      destruct l2 as [|x l2 _] using rev_ind.
      * apply app_inj_tail in Hk as [Hk ->].
        exists h, []. rewrite <- Hk. split; [reflexivity|]. split.
        -- now rewrite <- keys_gestureCount.
        -- intros g' Hg'. now apply keys_gestureCount.
      * change (l1 ++ w :: l2 ++ [x])%list with (l1 ++ (w :: l2) ++ [x])%list in Hk.
        rewrite app_assoc in Hk. apply app_inj_tail in Hk as [Hk ->].
        destruct (IH _ _ _ Hk) as (h1 & h2 & -> & Hw & Hl).
        exists h1, (h2 ++ [x])%list. rewrite <- app_assoc. simpl. auto.
Qed.

(** What a [reduce] with the callback [(a, b) => v(a) > v(b) ? a : b]
    selects: the last element of maximal value. *)
Lemma fold_pick_last_max {A} (v : A -> nat) (pick : A -> A -> A) (P : A -> Prop) :
  (forall a b, P a -> P b -> pick a b = if (v b <? v a)%nat then a else b) ->
  forall l a, P a -> Forall P l ->
  exists l1 w l2, (a :: l = l1 ++ w :: l2)%list /\ fold_left pick l a = w /\ P w /\
    Forall (fun e => v e <= v w)%nat l1 /\ Forall (fun e => v e < v w)%nat l2.
Proof.
  intros Hpick l a Ha.
  induction l as [|b l IH] using rev_ind; intros Hl.
  - exists [], a, []. simpl. auto.
  - apply Forall_app in Hl as [Hl Hb]. inversion_clear Hb as [|? ? Hb' _].
    destruct (IH Hl) as (l1 & w & l2 & Hsplit & Hw & HPw & H1 & H2).
    rewrite fold_left_app. simpl. rewrite Hw, (Hpick w b HPw Hb').
    destruct (Nat.ltb_spec (v b) (v w)) as [Hlt|Hge].
    + exists l1, w, (l2 ++ [b])%list.
      split; [rewrite app_comm_cons, Hsplit, <- app_assoc; reflexivity|].
      split; [reflexivity|]. split; [assumption|]. split; [assumption|].
      apply Forall_app. split; [assumption|]. constructor; [assumption|constructor].
    + exists (a :: l), b, [].
      split; [reflexivity|]. split; [reflexivity|]. split; [assumption|].
      split; [|constructor].
      rewrite Hsplit. apply Forall_app. split.
      * eapply List.Forall_impl; [|exact H1]. simpl. intros; lia.
      * constructor; [lia|]. eapply List.Forall_impl; [|exact H2]. simpl. intros; lia.
Qed.

Lemma gestureCount_entry (h : list string) (e : string * nat) :
  In e (gestureCount h) -> In (fst e) h.
Proof.
  intros He. apply keys_gestureCount. unfold keys. now apply in_map.
Qed.

Lemma gestureCount_lookup (h : list string) (g : string) :
  In g h -> obj_get (gestureCount h) g = Some (occurrences g h).
Proof.
  intros Hg. apply occurrences_pos in Hg. rewrite gestureCount_get.
  destruct (Nat.eqb_spec (occurrences g h) 0); [lia | reflexivity].
Qed.

Lemma push_history_last (history : list string) (g : string) :
  last (push_history history g) = Some g.
Proof.
  unfold push_history.
  destruct (5 <? length (history ++ [g]))%nat eqn:E; [|apply last_snoc].
  apply Nat.ltb_lt in E.
  destruct history as [|g0 history]; simpl in *; [lia|].
  apply last_snoc.
Qed.

Lemma push_history_nonempty (history : list string) (g : string) :
  push_history history g <> [].
Proof.
  intros H. pose proof (push_history_last history g) as Hl.
  rewrite H in Hl. discriminate.
Qed.

Lemma push_history_length (history : list string) (g : string) :
  (length history <= 5 -> length (push_history history g) <= 5)%nat.
Proof.
  intros H. unfold push_history.
  destruct (Nat.ltb_spec 5 (length (history ++ [g]))) as [Hlt|Hge]; [|assumption].
  rewrite length_app in Hlt. simpl in Hlt.
  destruct history; simpl in *; [lia|]. rewrite length_app. simpl. lia.
Qed.

Lemma fold_pick_in {A} (pick : A -> A -> A) (P : A -> Prop) :
  (forall a b, pick a b = a \/ pick a b = b) ->
  forall l a, P a -> Forall P l -> P (fold_left pick l a).
Proof.
  intros Hpick l. induction l as [|b l IH]; intros a Ha Hl; simpl; [assumption|].
  inversion_clear Hl as [|? ? Hb Hl']. apply IH; [|assumption].
  destruct (Hpick a b) as [->| ->]; assumption.
Qed.

(** The vote never throws on a history that holds a label. *)
Lemma mostCommon_total (h : list string) :
  h <> [] -> exists w, mostCommon h = Normal w /\ In w h.
Proof.
  intros Hne. unfold mostCommon. cbv zeta.
  set (pick := fun a b : string * nat => if count_gt _ _ then a else b).
  assert (Hall : Forall (fun e => In (fst e) h) (gestureCount h)).
  { apply List.Forall_forall. intros e'. apply gestureCount_entry. }
  destruct h as [|g0 h']; [contradiction|].
  assert (Hk : In g0 (keys (gestureCount (g0 :: h'))))
    by (apply keys_gestureCount; now left).
  destruct (gestureCount (g0 :: h')) as [|e gc']; [destruct Hk|].
  simpl. eexists. split; [reflexivity|].
  inversion_clear Hall as [|? ? He Hgc'].
  apply (fold_pick_in pick (fun e => In (fst e) (g0 :: h'))); try assumption.
  intros a b. unfold pick. destruct (count_gt _ _); auto.
Qed.

(** C1, as the code has it.  For every non-empty history of plain labels
    the vote returns a label [w] of maximal count, and a tie is broken in
    favour of the tied label that is encountered LAST: every other label
    with the same count already occurs in the history before the first
    occurrence of [w].  (The labels being plain is what makes [JSObject]
    the object of the source; the histories of the component always are,
    see [run_frames_invariant].) *)
Theorem debounce_tie_break (h : list string) :
  h <> [] ->
  Forall (fun g => plain_label g = true) h ->
  exists w h1 h2,
    mostCommon h = Normal w /\
    h = (h1 ++ w :: h2)%list /\ ~ In w h1 /\
    (forall g, occurrences g h <= occurrences w h)%nat /\
    (forall g, g <> w -> occurrences g h = occurrences w h -> In g h1).
Proof.
  intros Hne _.
  assert (Hgc : exists e gc', gestureCount h = e :: gc').
  { destruct h as [|g0 h']; [contradiction|].
    assert (Hk : In g0 (keys (gestureCount (g0 :: h'))))
      by (apply keys_gestureCount; now left).
    destruct (gestureCount (g0 :: h')) as [|e gc']; [destruct Hk | eauto]. }
  destruct Hgc as (e & gc' & Egc).
  unfold mostCommon. cbv zeta.
  set (pick := fun a b : string * nat => if count_gt _ _ then a else b).
  rewrite Egc. simpl.
  assert (Hall : Forall (fun e => In (fst e) h) (e :: gc')).
  { rewrite <- Egc. apply List.Forall_forall. intros e'. apply gestureCount_entry. }
  inversion Hall as [|? ? He Hgc']; subst.
  destruct (fold_pick_last_max (fun e => occurrences (fst e) h) pick
              (fun e => In (fst e) h)) with (l := gc') (a := e)
    as (l1 & w & l2 & Hsplit & Hw & HPw & H1 & H2); try assumption.
  { intros a b Ha Hb. unfold pick.
    rewrite (gestureCount_lookup h (fst a) Ha), (gestureCount_lookup h (fst b) Hb).
    reflexivity. }
  rewrite Hw.
  assert (Hkeys : keys (gestureCount h) = (map fst l1 ++ fst w :: map fst l2)%list).
  { rewrite Egc, Hsplit. unfold keys. rewrite map_app. reflexivity. }
  destruct (keys_first_occurrence h _ _ _ Hkeys) as (h1 & h2 & Hh & Hw1 & Hl1).
  assert (Hentry : forall g, In g h ->
            In g (map fst l1) \/ g = fst w \/
            (occurrences g h < occurrences (fst w) h)%nat).
  { intros g Hg. apply keys_gestureCount in Hg. rewrite Hkeys in Hg.
    apply in_app_or in Hg as [Hg|[Hg|Hg]]; auto.
    right; right. apply in_map_iff in Hg as (e' & <- & He').
    rewrite List.Forall_forall in H2. now apply H2. }
  exists (fst w), h1, h2.
  split; [reflexivity|]. split; [assumption|]. split; [assumption|]. split.
  - intros g. destruct (in_dec string_dec g h) as [Hg|Hg].
    + destruct (Hentry g Hg) as [Hg1|[->|Hlt]]; [|lia|lia].
      apply in_map_iff in Hg1 as (e' & <- & He').
      rewrite List.Forall_forall in H1. now apply H1.
    + unfold occurrences at 1. rewrite (proj1 (count_occ_not_In string_dec h g) Hg). lia.
  - intros g Hgw Htie.
    assert (Hg : In g h).
    { apply occurrences_pos. rewrite Htie. now apply occurrences_pos. }
    destruct (Hentry g Hg) as [Hg1|[->|Hlt]]; [auto | contradiction | lia].
Qed.

Lemma debounce_tie_break_witness :
  exists w h1 h2,
    mostCommon ["A"; "B"; "A"; "B"; "C"] = Normal w /\
    ["A"; "B"; "A"; "B"; "C"] = (h1 ++ w :: h2)%list /\ ~ In w h1 /\
    (forall g, occurrences g ["A"; "B"; "A"; "B"; "C"]
               <= occurrences w ["A"; "B"; "A"; "B"; "C"])%nat /\
    (forall g, g <> w ->
               occurrences g ["A"; "B"; "A"; "B"; "C"]
               = occurrences w ["A"; "B"; "A"; "B"; "C"] -> In g h1).
Proof.
  apply (debounce_tie_break ["A"; "B"; "A"; "B"; "C"]).
  - discriminate.
  - repeat constructor.
Defined.

(** The instance of C1 that the specification names, evaluated. *)
Example debounce_ABABC :
  mostCommon (push_all [] ["A"; "B"; "A"; "B"; "C"]) = Normal "B".
Proof. vm_compute. reflexivity. Qed.

(** C1 as stated fails: the vote over A, B, A, B, C is not A. *)
Lemma debounce_first_wins_fails :
  mostCommon (push_all [] ["A"; "B"; "A"; "B"; "C"]) <> Normal "A".
Proof. vm_compute. discriminate. Qed.

(** ** Comparisons on numbers *)

Lemma Rltb_true (a b : R) : a < b -> Rltb a b = true.
Proof. intros H. unfold Rltb. destruct (Rlt_dec a b); [reflexivity | contradiction]. Qed.

Lemma Rltb_false (a b : R) : b <= a -> Rltb a b = false.
Proof. intros H. unfold Rltb. destruct (Rlt_dec a b); [lra | reflexivity]. Qed.

Lemma Rgtb_true (a b : R) : a > b -> Rgtb a b = true.
Proof. intros H. unfold Rgtb. destruct (Rgt_dec a b); [reflexivity | contradiction]. Qed.

Lemma Rgtb_false (a b : R) : a <= b -> Rgtb a b = false.
Proof. intros H. unfold Rgtb. destruct (Rgt_dec a b); [lra | reflexivity]. Qed.

Lemma truthy_Some (r : R) : truthy (Some r) = true <-> r <> 0.
Proof. simpl. destruct (Req_dec_T r 0); split; auto; try discriminate; contradiction. Qed.

(** Decides the comparisons of concrete numbers that a goal branches on. *)
Ltac decide_numbers :=
  repeat first
    [ rewrite Rltb_true by lra | rewrite Rltb_false by lra
    | rewrite Rgtb_true by lra | rewrite Rgtb_false by lra ].

(** ** The landmark smoother *)

Section Smoother.

Variable smoothing : R.

Lemma map_from_smooth (previous : list HandLandmark) :
  forall (currentLandmarks : list HandLandmark) (i : nat),
  (i + length currentLandmarks <= length previous)%nat ->
  map_from (fun landmark i =>
              obind (oderef (previous !! i)) (fun prev =>
              Normal (smooth_one smoothing prev landmark)))
           i currentLandmarks
  = Normal (zip_with (smooth_one smoothing) (drop i previous) currentLandmarks).
Proof.
  induction currentLandmarks as [|c cur IH]; intros i Hlen; simpl in *.
  - now rewrite zip_with_nil_r.
  - destruct (lookup_lt_is_Some_2 previous i) as [p Hp]; [lia|].
    rewrite Hp. simpl. rewrite IH by lia. simpl.
    rewrite (drop_S _ _ _ Hp). reflexivity.
Qed.

Lemma map_from_smooth_short (previous : list HandLandmark) :
  forall (currentLandmarks : list HandLandmark) (i : nat),
  (i <= length previous < i + length currentLandmarks)%nat ->
  map_from (fun landmark i =>
              obind (oderef (previous !! i)) (fun prev =>
              Normal (smooth_one smoothing prev landmark)))
           i currentLandmarks
  = TypeError.
Proof.
  induction currentLandmarks as [|c cur IH]; intros i Hlen; simpl in *.
  - lia.
  - destruct (previous !! i) as [p|] eqn:Hp; simpl; [|reflexivity].
    rewrite IH; [reflexivity|]. apply lookup_lt_Some in Hp. lia.
Qed.

(** First observation of a slot. *)
Lemma smoothLandmarks_first (refs : Refs) (cur : list HandLandmark) (slot : nat) :
  smoothedLandmarksRef refs !! slot = None ->
  smoothLandmarks smoothing cur slot refs =
  (Normal cur, {| gestureHistoryRef := gestureHistoryRef refs;
                  smoothedLandmarksRef := <[slot := cur]> (smoothedLandmarksRef refs) |}).
Proof.
  intros Hslot. unfold smoothLandmarks, bind, get_refs. rewrite Hslot. reflexivity.
Qed.

(** Later observations of a slot whose stored array is long enough. *)
Lemma smoothLandmarks_next (refs : Refs) (prev cur : list HandLandmark) (slot : nat) :
  smoothedLandmarksRef refs !! slot = Some prev ->
  (length cur <= length prev)%nat ->
  smoothLandmarks smoothing cur slot refs =
  (Normal (zip_with (smooth_one smoothing) prev cur),
   {| gestureHistoryRef := gestureHistoryRef refs;
      smoothedLandmarksRef :=
        <[slot := zip_with (smooth_one smoothing) prev cur]> (smoothedLandmarksRef refs) |}).
Proof.
  intros Hslot Hlen. unfold smoothLandmarks, bind, get_refs, lift, array_map.
  rewrite Hslot, map_from_smooth by (simpl; lia). reflexivity.
Qed.

(** A stored array that is too short makes the callback read a property
    of [undefined]; nothing is written. *)
Lemma smoothLandmarks_short (refs : Refs) (prev cur : list HandLandmark) (slot : nat) :
  smoothedLandmarksRef refs !! slot = Some prev ->
  (length prev < length cur)%nat ->
  smoothLandmarks smoothing cur slot refs = (TypeError, refs).
Proof.
  intros Hslot Hlen. unfold smoothLandmarks, bind, get_refs, lift, array_map.
  rewrite Hslot, map_from_smooth_short by (simpl; lia). reflexivity.
Qed.

(** Smoothing a landmark towards itself leaves it where it is. *)
Lemma smooth_one_same (p : HandLandmark) : smooth_one smoothing p p = p.
Proof.
  destruct p as [px py pz]. unfold smooth_one. simpl. f_equal; try ring.
  destruct pz as [r|]; simpl; [|reflexivity].
  destruct (Req_dec_T r 0); simpl; [reflexivity|]. f_equal. ring.
Qed.

Lemma zip_with_smooth_same (l : list HandLandmark) :
  zip_with (smooth_one smoothing) l l = l.
Proof.
  induction l as [|p l IH]; simpl; [reflexivity|].
  now rewrite smooth_one_same, IH.
Qed.

(** The z coordinate: smoothed when both values are truthy, the current
    one otherwise. *)
Lemma smooth_one_z_truthy (prev cur : HandLandmark) (pz cz : R) :
  z prev = Some pz -> z cur = Some cz -> pz <> 0 -> cz <> 0 ->
  z (smooth_one smoothing prev cur) = Some (pz * smoothing + cz * (1 - smoothing)).
Proof.
  intros Hp Hc Hpz Hcz. unfold smooth_one. simpl. rewrite Hp, Hc.
  rewrite (proj2 (truthy_Some pz) Hpz), (proj2 (truthy_Some cz) Hcz). reflexivity.
Qed.

Lemma smooth_one_z_falsy (prev cur : HandLandmark) :
  truthy (z prev) = false \/ truthy (z cur) = false ->
  z (smooth_one smoothing prev cur) = z cur.
Proof.
  intros H. unfold smooth_one. simpl.
  destruct (truthy (z prev)), (truthy (z cur)); simpl; try reflexivity.
  destruct H; discriminate.
Qed.

End Smoother.

(** C7.  The contract of the smoother.  Whenever no previous landmark is
    missing for the slot, the call completes normally and persists what
    it returns as the slot's new previous state; on the first
    observation it returns its input unchanged, and afterwards every
    returned x and y is [prev * smoothing + current * (1 - smoothing)]. *)
Theorem smoothLandmarks_contract
    (smoothing : R) (refs : Refs) (cur : list HandLandmark) (slot : nat) :
  (forall prev, smoothedLandmarksRef refs !! slot = Some prev ->
                (length cur <= length prev)%nat) ->
  exists out,
    smoothLandmarks smoothing cur slot refs =
      (Normal out,
       {| gestureHistoryRef := gestureHistoryRef refs;
          smoothedLandmarksRef := <[slot := out]> (smoothedLandmarksRef refs) |}) /\
    match smoothedLandmarksRef refs !! slot with
    | None => out = cur
    | Some prev =>
        length out = length cur /\
        forall i c, cur !! i = Some c ->
          exists p o, prev !! i = Some p /\ out !! i = Some o /\
            x o = x p * smoothing + x c * (1 - smoothing) /\
            y o = y p * smoothing + y c * (1 - smoothing)
    end.
Proof.
  intros Hlen. destruct (smoothedLandmarksRef refs !! slot) as [prev|] eqn:Hslot.
  - specialize (Hlen prev eq_refl).
    exists (zip_with (smooth_one smoothing) prev cur).
    split; [now apply smoothLandmarks_next|]. split.
    + rewrite length_zip_with. lia.
    + intros i c Hc.
      destruct (lookup_lt_is_Some_2 prev i) as [p Hp].
      { apply lookup_lt_Some in Hc. lia. }
      exists p, (smooth_one smoothing p c).
      split; [assumption|]. split; [|split; reflexivity].
      rewrite lookup_zip_with, Hp, Hc. reflexivity.
  - exists cur. split; [now apply smoothLandmarks_first | reflexivity].
Qed.

Lemma smoothLandmarks_contract_witness :
  let prev := replicate 21 (mkLandmark 0 0 None) in
  let cur := replicate 21 (mkLandmark 10 10 None) in
  let refs := {| gestureHistoryRef := []; smoothedLandmarksRef := {[ 0%nat := prev ]} |} in
  exists out,
    smoothLandmarks 0.8 cur 0 refs =
      (Normal out,
       {| gestureHistoryRef := gestureHistoryRef refs;
          smoothedLandmarksRef := <[0%nat := out]> (smoothedLandmarksRef refs) |}) /\
    match smoothedLandmarksRef refs !! 0%nat with
    | None => out = cur
    | Some prev =>
        length out = length cur /\
        forall i c, cur !! i = Some c ->
          exists p o, prev !! i = Some p /\ out !! i = Some o /\
            x o = x p * 0.8 + x c * (1 - 0.8) /\
            y o = y p * 0.8 + y c * (1 - 0.8)
    end.
Proof.
  intros prev cur refs. apply (smoothLandmarks_contract 0.8 refs cur 0).
  intros prev' H. unfold refs in H. simpl in H.
  rewrite lookup_singleton_eq in H. injection H as <-. simpl. lia.
Defined.

(** C8 at a frame whose previous z is the number 0.  Both z values are
    present, yet the returned z is the current one, 10, where the EMA of
    0 and 10 with factor 0.8 is 2: the guard [prev.z && landmark.z]
    tests truthiness, and 0 is falsy. *)
Theorem smooth_z_zero_passes_through :
  let prev := replicate 21 (mkLandmark 0 0 (Some 0)) in
  let cur := replicate 21 (mkLandmark 0 0 (Some 10)) in
  let refs := {| gestureHistoryRef := []; smoothedLandmarksRef := {[ 0%nat := prev ]} |} in
  exists out refs',
    smoothLandmarks 0.8 cur 0 refs = (Normal out, refs') /\
    length out = 21%nat /\
    (forall o, In o out -> z o = Some 10) /\
    0 * 0.8 + 10 * (1 - 0.8) = 2.
Proof.
  intros prev cur refs.
  eexists _, _. split.
  - apply smoothLandmarks_next; [apply lookup_singleton_eq | simpl; lia].
  - split; [reflexivity|]. split; [|lra].
    intros o Ho. simpl in Ho.
    assert (Hz : z (smooth_one 0.8 (mkLandmark 0 0 (Some 0)) (mkLandmark 0 0 (Some 10)))
                 = Some 10).
    { apply smooth_one_z_falsy. left. simpl.
      destruct (Req_dec_T 0 0); [reflexivity | contradiction]. }
    repeat (destruct Ho as [<-|Ho]; [exact Hz|]). destruct Ho.
Qed.

(** ** The finger-geometry analyser and the decision table *)

Ltac split_frame l H :=
  do 21 (destruct l as [|? l]; [simpl in H; try lia; try discriminate|]).

Lemma key_landmarks_total (landmarks : list HandLandmark) :
  (21 <= length landmarks)%nat -> exists k, key_landmarks landmarks = Normal k.
Proof. intros H. split_frame landmarks H. eexists. reflexivity. Qed.

Lemma key_landmarks_length (landmarks : list HandLandmark) (k : KeyLandmarks) :
  key_landmarks landmarks = Normal k -> (21 <= length landmarks)%nat.
Proof. intros H. split_frame landmarks H. simpl. lia. Qed.

Lemma calculateFingerAngles_total (landmarks : list HandLandmark) :
  (21 <= length landmarks)%nat ->
  exists angles, calculateFingerAngles landmarks = Normal angles.
Proof. intros H. split_frame landmarks H. eexists. reflexivity. Qed.

Ltac pick_label := solve [repeat first [left; reflexivity | right]].

(** Every extension pattern is given one of the eleven labels of
    [table_labels] by the decision table. *)
Lemma decision_table_label (k : KeyLandmarks) :
  In (fst (decision_table k)) table_labels.
Proof.
  unfold decision_table, is_pointing, is_peace_sign, is_thumbs_up, is_ok_sign,
    is_rock_sign, is_call_me, extendedCount, extendedFingers, table_labels.
  destruct (thumbExtended k), (indexExtended k), (middleExtended k),
    (ringExtended k), (pinkyExtended k); simpl; pick_label.
Qed.

(** The condition of the OK-sign branch implies that of the pointing
    branch, which the chain tests first. *)
Lemma ok_sign_is_pointing (k : KeyLandmarks) :
  is_ok_sign k = true -> is_pointing k = true.
Proof.
  unfold is_ok_sign, is_pointing.
  destruct (thumbExtended k), (indexExtended k), (middleExtended k),
    (ringExtended k), (pinkyExtended k); simpl; auto.
Qed.

(** No frame is labelled ['OK Sign'] by the decision table. *)
Lemma ok_sign_never_produced (k : KeyLandmarks) :
  fst (decision_table k) <> "OK Sign".
Proof.
  intros Hu. pose proof (decision_table_label k) as Hl.
  rewrite Hu in Hl. unfold table_labels in Hl. simpl in Hl.
  repeat (destruct Hl as [Hl|Hl]; [discriminate|]). destruct Hl.
Qed.

(** Thumb and index extended, the others not: the pointing branch. *)
Lemma thumb_index_only_pointing (k : KeyLandmarks) :
  extendedFingers k = [true; true; false; false; false] ->
  decision_table k = ("Pointing", 0.9).
Proof.
  unfold extendedFingers. intros H. injection H as Ht Hi Hm Hr Hp.
  unfold decision_table, is_pointing, extendedCount, extendedFingers.
  rewrite Ht, Hi, Hm, Hr, Hp. reflexivity.
Qed.

Lemma euclid_lt (a b : HandLandmark) (d : R) :
  0 <= d -> (x a - x b) ^ 2 + (y a - y b) ^ 2 < d ^ 2 -> euclid a b < d.
Proof.
  intros Hd H. unfold euclid. rewrite <- (sqrt_pow2 d Hd).
  apply sqrt_lt_1_alt. split; [|exact H].
  apply Rplus_le_le_0_compat; apply pow2_ge_0.
Qed.

(** C10.  For a frame of 21 landmarks the named landmarks are all there,
    and the label the decision table gives it is one of [table_labels],
    hence never the initial ['Unknown']: the one branch that can leave the
    label unassigned is guarded by a condition that implies the condition
    of the earlier pointing branch. *)
Theorem raw_label_never_unknown (landmarks : list HandLandmark) :
  length landmarks = 21%nat ->
  exists k,
    key_landmarks landmarks = Normal k /\
    In (fst (decision_table k)) table_labels /\
    fst (decision_table k) <> "Unknown" /\
    (is_ok_sign k = true -> is_pointing k = true).
Proof.
  intros Hlen. destruct (key_landmarks_total landmarks) as [k Hk]; [lia|].
  exists k. split; [assumption|].
  pose proof (decision_table_label k) as Hl.
  split; [assumption|]. split; [|apply ok_sign_is_pointing].
  intros Hu. rewrite Hu in Hl. unfold table_labels in Hl. simpl in Hl.
  repeat (destruct Hl as [Hl|Hl]; [discriminate|]). destruct Hl.
Qed.

Lemma raw_label_never_unknown_witness :
  exists k,
    key_landmarks ok_sign_frame = Normal k /\
    In (fst (decision_table k)) table_labels /\
    fst (decision_table k) <> "Unknown" /\
    (is_ok_sign k = true -> is_pointing k = true).
Proof. apply (raw_label_never_unknown ok_sign_frame). reflexivity. Defined.

(** C2 at [ok_sign_frame]: thumb and index are the extended fingers and
    their tips are less than 30 apart, and the decision table answers
    ['Pointing'] with confidence 0.9, not ['OK Sign'] with 0.8. *)
Theorem ok_sign_frame_is_pointing :
  exists k,
    key_landmarks ok_sign_frame = Normal k /\
    extendedFingers k = [true; true; false; false; false] /\
    euclid (thumbTip k) (indexTip k) < 30 /\
    decision_table k = ("Pointing", 0.9).
Proof.
  eexists. split; [reflexivity|].
  assert (He : forall k, key_landmarks ok_sign_frame = Normal k ->
                         extendedFingers k = [true; true; false; false; false]).
  { intros k Hk. injection Hk as <-.
    unfold extendedFingers, thumbExtended, indexExtended, middleExtended,
      ringExtended, pinkyExtended. simpl. decide_numbers. reflexivity. }
  split; [apply He; reflexivity|]. split.
  - apply euclid_lt; simpl; lra.
  - apply thumb_index_only_pointing, He. reflexivity.
Qed.

(** ** The frame callbacks, step by step *)

Section Frames.

Variable sensitivity : R.
Variable smoothing : R.

(** What [detectAdvancedGesture] does on a frame with a hand whose
    smoothed landmarks include the named ones. *)
Lemma detectAdvancedGesture_frame
    (hand : Hand) (rest : list Hand) (refs refs1 : Refs)
    (landmarks : list HandLandmark) (k : KeyLandmarks) :
  smoothLandmarks smoothing (keypoints hand) 0 refs = (Normal landmarks, refs1) ->
  key_landmarks landmarks = Normal k ->
  let gc := apply_sensitivity sensitivity (decision_table k) in
  let history := push_history (gestureHistoryRef refs1) (fst gc) in
  exists angles winner,
    calculateFingerAngles landmarks = Normal angles /\
    mostCommon history = Normal winner /\
    detectAdvancedGesture sensitivity smoothing (hand :: rest) refs =
      (Normal {| gesture := winner;
                 confidence := Rmax 0 (Rmin 1 (snd gc));
                 handData := Some {| hd_landmarks := landmarks;
                                     hd_angles := angles;
                                     hd_extendedFingers := extendedFingers k;
                                     hd_handedness := handedness hand |} |},
       {| gestureHistoryRef := history;
          smoothedLandmarksRef := smoothedLandmarksRef refs1 |}).
Proof.
  intros Hsm Hk gc history.
  destruct (calculateFingerAngles_total landmarks) as [angles Ha].
  { eapply key_landmarks_length; eassumption. }
  destruct (mostCommon_total history) as (winner & Hw & _).
  { apply push_history_nonempty. }
  exists angles, winner. split; [assumption|]. split; [assumption|].
  unfold detectAdvancedGesture, bind, lift, get_refs, put_refs, ret.
  rewrite Hsm, Ha, Hk. fold gc. fold history. rewrite Hw. reflexivity.
Qed.

(** The smoother writes one slot and nothing else. *)
Lemma smoothLandmarks_store (cur : list HandLandmark) (slot : nat) (refs : Refs) :
  gestureHistoryRef (snd (smoothLandmarks smoothing cur slot refs)) = gestureHistoryRef refs /\
  forall j, j <> slot ->
    smoothedLandmarksRef (snd (smoothLandmarks smoothing cur slot refs)) !! j
    = smoothedLandmarksRef refs !! j.
Proof.
  destruct (smoothedLandmarksRef refs !! slot) as [prev|] eqn:Hslot.
  - destruct (Nat.le_gt_cases (length cur) (length prev)) as [Hle|Hgt].
    + rewrite (smoothLandmarks_next _ _ _ _ _ Hslot Hle). simpl.
      split; [reflexivity|]. intros j Hj. now rewrite lookup_insert_ne.
    + rewrite (smoothLandmarks_short _ _ _ _ _ Hslot Hgt). auto.
  - rewrite (smoothLandmarks_first _ _ _ _ Hslot). simpl.
    split; [reflexivity|]. intros j Hj. now rewrite lookup_insert_ne.
Qed.

(** Drawing the hands from slot [i] on leaves the history and the slots
    below [i] as they are. *)
Lemma draw_from_store (hands : list Hand) :
  forall (i : nat) (refs : Refs),
  gestureHistoryRef (snd (draw_from smoothing i hands refs)) = gestureHistoryRef refs /\
  forall j, (j < i)%nat ->
    smoothedLandmarksRef (snd (draw_from smoothing i hands refs)) !! j
    = smoothedLandmarksRef refs !! j.
Proof.
  induction hands as [|hand rest IH]; intros i refs; simpl.
  - auto.
  - destruct (smoothLandmarks_store (keypoints hand) i refs) as [Hh Hs].
    unfold bind.
    destruct (smoothLandmarks smoothing (keypoints hand) i refs) as [[lm|] refs1];
      simpl in *; [|split; [assumption | intros j Hj; apply Hs; lia]].
    destruct (skeleton_readable lm); simpl.
    + destruct (IH (S i) refs1) as [Hh' Hs'].
      split; [congruence|]. intros j Hj. rewrite Hs' by lia. apply Hs. lia.
    + split; [assumption | intros j Hj; apply Hs; lia].
Qed.

End Frames.

Lemma skeleton_readable_21 (landmarks : list HandLandmark) :
  (21 <= length landmarks)%nat -> skeleton_readable landmarks = true.
Proof.
  intros H. unfold skeleton_readable. apply forallb_forall. intros [a b] Hc.
  apply andb_true_intro. split; apply bool_decide_eq_true, lookup_lt_is_Some; simpl;
    unfold connections in Hc; simpl in Hc;
    repeat (destruct Hc as [[= <- <-]|Hc]; [lia|]); destruct Hc.
Qed.

(** ** Two smoothings per frame *)

Section TwoSmoothings.

Variable sensitivity : R.
Variable smoothing : R.

(** First smoothing of the frame: inside [detectAdvancedGesture]. *)
Lemma detect_step (hand : Hand) (rest : list Hand) (refs : Refs) :
  length (keypoints hand) = 21%nat ->
  (forall prev, smoothedLandmarksRef refs !! 0%nat = Some prev -> length prev = 21%nat) ->
  let once := zip_with (smooth_one smoothing)
                       (default (keypoints hand) (smoothedLandmarksRef refs !! 0%nat))
                       (keypoints hand) in
  exists k r,
    key_landmarks once = Normal k /\
    detectAdvancedGesture sensitivity smoothing (hand :: rest) refs =
      (Normal r,
       {| gestureHistoryRef :=
            push_history (gestureHistoryRef refs)
                         (fst (apply_sensitivity sensitivity (decision_table k)));
          smoothedLandmarksRef := <[0%nat := once]> (smoothedLandmarksRef refs) |}) /\
    length once = 21%nat.
Proof.
  intros Hraw Hprev once.
  assert (Hsm : smoothLandmarks smoothing (keypoints hand) 0 refs =
                (Normal once,
                 {| gestureHistoryRef := gestureHistoryRef refs;
                    smoothedLandmarksRef := <[0%nat := once]> (smoothedLandmarksRef refs) |})
                /\ length once = 21%nat).
  { unfold once.
    destruct (smoothedLandmarksRef refs !! 0%nat) as [prev|] eqn:Hslot; simpl.
    - split; [apply smoothLandmarks_next; [assumption | rewrite (Hprev prev); [lia | reflexivity]]|].
      rewrite length_zip_with, (Hprev prev eq_refl). lia.
    - rewrite zip_with_smooth_same. split; [now apply smoothLandmarks_first | assumption]. }
  destruct Hsm as [Hsm Hlen].
  destruct (key_landmarks_total once) as [k Hk]; [lia|].
  destruct (detectAdvancedGesture_frame sensitivity smoothing hand rest
              refs _ once k Hsm Hk) as (angles & winner & _ & _ & Hd).
  eexists k, _. split; [assumption|]. split; [exact Hd | assumption].
Qed.

(** Second smoothing of the frame: inside [drawAdvancedHands]. *)
Lemma draw_step (hand : Hand) (rest : list Hand) (refs : Refs) (once : list HandLandmark) :
  length (keypoints hand) = 21%nat ->
  length once = 21%nat ->
  smoothedLandmarksRef refs !! 0%nat = Some once ->
  let twice := zip_with (smooth_one smoothing) once (keypoints hand) in
  smoothedLandmarksRef (snd (drawAdvancedHands smoothing true (hand :: rest) refs)) !! 0%nat
    = Some twice /\
  gestureHistoryRef (snd (drawAdvancedHands smoothing true (hand :: rest) refs))
    = gestureHistoryRef refs /\
  (rest = [] ->
   snd (drawAdvancedHands smoothing true (hand :: rest) refs) =
     {| gestureHistoryRef := gestureHistoryRef refs;
        smoothedLandmarksRef := <[0%nat := twice]> (smoothedLandmarksRef refs) |}).
Proof.
  intros Hraw Hlen Hslot twice. unfold drawAdvancedHands. cbn [draw_from]. unfold bind.
  rewrite (smoothLandmarks_next smoothing refs once (keypoints hand) 0 Hslot) by lia.
  fold twice.
  rewrite skeleton_readable_21 by (unfold twice; rewrite length_zip_with; lia).
  unfold ret. cbv beta iota.
  match goal with |- context [draw_from smoothing 1 rest ?s] => set (refs2 := s) end.
  destruct (draw_from_store smoothing rest 1 refs2) as [Hh Hs].
  split; [|split].
  - rewrite Hs by lia. unfold refs2. simpl. apply lookup_insert_eq.
  - rewrite Hh. reflexivity.
  - intros ->. reflexivity.
Qed.

(** C9.  On a processed frame with at least one hand (the canvas being
    ready, as it is whenever the video is mounted), slot 0 is advanced
    twice with the raw keypoints of the frame: [detectAdvancedGesture]
    leaves it at one smoothing step from where the frame started, and
    [drawAdvancedHands] takes it one step further, so that each
    persisted x and y is the EMA update applied twice. *)
Theorem slot0_advanced_twice (hand : Hand) (rest : list Hand) (refs : Refs) :
  length (keypoints hand) = 21%nat ->
  (forall prev, smoothedLandmarksRef refs !! 0%nat = Some prev -> length prev = 21%nat) ->
  let raw := keypoints hand in
  let prev0 := default raw (smoothedLandmarksRef refs !! 0%nat) in
  let once := zip_with (smooth_one smoothing) prev0 raw in
  let twice := zip_with (smooth_one smoothing) once raw in
  smoothedLandmarksRef
    (snd (detectAdvancedGesture sensitivity smoothing (hand :: rest) refs)) !! 0%nat
    = Some once /\
  smoothedLandmarksRef
    (snd (detectHands sensitivity smoothing true (hand :: rest) refs)) !! 0%nat
    = Some twice /\
  forall i p c, prev0 !! i = Some p -> raw !! i = Some c ->
    exists o, twice !! i = Some o /\
      x o = (x p * smoothing + x c * (1 - smoothing)) * smoothing
            + x c * (1 - smoothing) /\
      y o = (y p * smoothing + y c * (1 - smoothing)) * smoothing
            + y c * (1 - smoothing).
Proof.
  intros Hraw Hprev raw prev0 once twice.
  destruct (detect_step hand rest refs Hraw Hprev) as (k & r & Hk & Hd & Hlen).
  cbv zeta in Hd, Hlen, Hk. fold raw prev0 once in Hd, Hlen, Hk.
  split; [rewrite Hd; simpl; apply lookup_insert_eq|]. split.
  - unfold detectHands. cbn [length Nat.ltb Nat.leb]. rewrite Hd. cbn [snd].
    match goal with |- context [drawAdvancedHands _ _ _ ?s] => set (refs2 := s) end.
    destruct (draw_step hand rest refs2 once Hraw Hlen) as [Hs _].
    { unfold refs2. simpl. apply lookup_insert_eq. }
    exact Hs.
  - intros i p c Hp Hc. eexists. split.
    + unfold twice, once. rewrite !lookup_zip_with, Hp, Hc. reflexivity.
    + split; reflexivity.
Qed.

End TwoSmoothings.

Lemma slot0_advanced_twice_witness :
  let refs := {| gestureHistoryRef := ["Fist"; "Fist"];
                 smoothedLandmarksRef := {[ 0%nat := fist_frame ]} |} in
  let raw := keypoints (hand_of pointing_frame) in
  let prev0 := default raw (smoothedLandmarksRef refs !! 0%nat) in
  let once := zip_with (smooth_one 0.8) prev0 raw in
  let twice := zip_with (smooth_one 0.8) once raw in
  smoothedLandmarksRef
    (snd (detectAdvancedGesture 0.7 0.8 [hand_of pointing_frame] refs)) !! 0%nat
    = Some once /\
  smoothedLandmarksRef
    (snd (detectHands 0.7 0.8 true [hand_of pointing_frame] refs)) !! 0%nat
    = Some twice /\
  forall i p c, prev0 !! i = Some p -> raw !! i = Some c ->
    exists o, twice !! i = Some o /\
      x o = (x p * 0.8 + x c * (1 - 0.8)) * 0.8 + x c * (1 - 0.8) /\
      y o = (y p * 0.8 + y c * (1 - 0.8)) * 0.8 + y c * (1 - 0.8).
Proof.
  intros refs.
  apply (slot0_advanced_twice 0.7 0.8 (hand_of pointing_frame) [] refs).
  - reflexivity.
  - intros prev H. unfold refs in H. simpl in H.
    rewrite lookup_singleton_eq in H. injection H as <-. reflexivity.
Defined.

Section Runs.

Variable sensitivity : R.
Variable smoothing : R.

(** [detectAdvancedGesture] on a frame, from the pieces it is made of. *)
Lemma detectAdvancedGesture_eval
    (hand : Hand) (rest : list Hand) (refs refs1 : Refs)
    (landmarks : list HandLandmark) (k : KeyLandmarks) (g w : string) (c : R) :
  smoothLandmarks smoothing (keypoints hand) 0 refs = (Normal landmarks, refs1) ->
  key_landmarks landmarks = Normal k ->
  apply_sensitivity sensitivity (decision_table k) = (g, c) ->
  mostCommon (push_history (gestureHistoryRef refs1) g) = Normal w ->
  exists angles,
    calculateFingerAngles landmarks = Normal angles /\
    detectAdvancedGesture sensitivity smoothing (hand :: rest) refs =
      (Normal {| gesture := w;
                 confidence := Rmax 0 (Rmin 1 c);
                 handData := Some {| hd_landmarks := landmarks;
                                     hd_angles := angles;
                                     hd_extendedFingers := extendedFingers k;
                                     hd_handedness := handedness hand |} |},
       {| gestureHistoryRef := push_history (gestureHistoryRef refs1) g;
          smoothedLandmarksRef := smoothedLandmarksRef refs1 |}).
Proof.
  intros Hsm Hk Hgc Hw.
  destruct (detectAdvancedGesture_frame sensitivity smoothing hand rest
              refs refs1 landmarks k Hsm Hk) as (angles & winner & Ha & Hw' & Hd).
  rewrite Hgc in Hd, Hw'. simpl in Hd, Hw'.
  rewrite Hw in Hw'. injection Hw' as <-.
  exists angles. split; [exact Ha | exact Hd].
Qed.

(** A processed frame with one hand: the store it leaves. *)
Lemma detectHands_single (hand : Hand) (refs : Refs) :
  length (keypoints hand) = 21%nat ->
  (forall prev, smoothedLandmarksRef refs !! 0%nat = Some prev -> length prev = 21%nat) ->
  let raw := keypoints hand in
  let prev0 := default raw (smoothedLandmarksRef refs !! 0%nat) in
  let once := zip_with (smooth_one smoothing) prev0 raw in
  let twice := zip_with (smooth_one smoothing) once raw in
  exists k,
    key_landmarks once = Normal k /\
    snd (detectHands sensitivity smoothing true [hand] refs) =
      {| gestureHistoryRef :=
           push_history (gestureHistoryRef refs)
                        (fst (apply_sensitivity sensitivity (decision_table k)));
         smoothedLandmarksRef := <[0%nat := twice]> (smoothedLandmarksRef refs) |}.
Proof.
  intros Hraw Hprev raw prev0 once twice.
  destruct (detect_step sensitivity smoothing hand [] refs Hraw Hprev)
    as (k & r & Hk & Hd & Hlen).
  cbv zeta in Hk, Hd, Hlen. fold raw prev0 once in Hk, Hd, Hlen.
  exists k. split; [assumption|].
  unfold detectHands. cbn [length Nat.ltb Nat.leb]. rewrite Hd. cbn [snd].
  match goal with |- context [drawAdvancedHands _ _ _ ?s] => set (refs2 := s) end.
  destruct (draw_step smoothing hand [] refs2 once Hraw Hlen) as (_ & _ & Hs).
  { unfold refs2. simpl. apply lookup_insert_eq. }
  cbv zeta in Hs. rewrite (Hs eq_refl). unfold refs2. simpl.
  fold raw. fold twice. now rewrite insert_insert_eq.
Qed.

(** The same well-formed frame again (or for the first time): slot 0
    holds the frame afterwards, and its label has been pushed. *)
Lemma detectHands_repeat (F : list HandLandmark) (k : KeyLandmarks) (refs : Refs) :
  length F = 21%nat ->
  key_landmarks F = Normal k ->
  smoothedLandmarksRef refs !! 0%nat = None \/ smoothedLandmarksRef refs !! 0%nat = Some F ->
  snd (detectHands sensitivity smoothing true [hand_of F] refs) =
    {| gestureHistoryRef :=
         push_history (gestureHistoryRef refs)
                      (fst (apply_sensitivity sensitivity (decision_table k)));
       smoothedLandmarksRef := <[0%nat := F]> (smoothedLandmarksRef refs) |}.
Proof.
  intros HF Hk Hslot.
  destruct (detectHands_single (hand_of F) refs) as (k' & Hk' & Hs).
  { exact HF. }
  { intros prev Hp. destruct Hslot as [Hn|Hs]; rewrite Hp in *; [discriminate|].
    injection Hs as ->. exact HF. }
  cbv zeta in Hk', Hs. simpl in Hk', Hs.
  assert (Hstart : default F (smoothedLandmarksRef refs !! 0%nat) = F)
    by (destruct Hslot as [-> | ->]; reflexivity).
  rewrite Hstart in Hk', Hs. rewrite zip_with_smooth_same in Hk'.
  do 2 rewrite zip_with_smooth_same in Hs.
  rewrite Hk in Hk'. injection Hk' as <-. exact Hs.
Qed.

End Runs.

(** The second smoothing is visible in the store: after a closed hand,
    one frame of the pointing hand leaves the index tip at y = -72, where
    a single EMA step from 0 towards -200 with factor 0.8 gives -40. *)
Example twice_is_not_once :
  let refs := {| gestureHistoryRef := ["Fist"; "Fist"];
                 smoothedLandmarksRef := {[ 0%nat := fist_frame ]} |} in
  exists stored tip,
    smoothedLandmarksRef
      (snd (detectHands 0.7 0.8 true [hand_of pointing_frame] refs)) !! 0%nat
      = Some stored /\
    stored !! 8%nat = Some tip /\
    y tip = -72 /\
    0 * 0.8 + -200 * (1 - 0.8) = -40.
Proof.
  intros refs.
  destruct (detectHands_single 0.7 0.8 (hand_of pointing_frame) refs) as (k & _ & Hs).
  { reflexivity. }
  { intros prev H. unfold refs in H. simpl in H.
    rewrite lookup_singleton_eq in H. injection H as <-. reflexivity. }
  cbv zeta in Hs. rewrite Hs. simpl. rewrite lookup_insert_eq, lookup_singleton_eq.
  eexists _, _. split; [reflexivity|]. split; [reflexivity|]. simpl. split; lra.
Qed.

(** ** Runs from a restart *)

Lemma euclid_same (a : HandLandmark) : euclid a a = 0.
Proof.
  unfold euclid.
  replace ((x a - x a) ^ 2 + (y a - y a) ^ 2) with 0 by ring.
  apply sqrt_0.
Qed.

Lemma fist_frame_label (k : KeyLandmarks) :
  key_landmarks fist_frame = Normal k ->
  apply_sensitivity 0.7 (decision_table k) = ("Fist", 1).
Proof.
  intros Hk. injection Hk as <-.
  unfold decision_table, extendedCount, extendedFingers, thumbExtended,
    indexExtended, middleExtended, ringExtended, pinkyExtended.
  simpl. decide_numbers. simpl.
  rewrite euclid_same, Rmin_left by lra.
  unfold apply_sensitivity. simpl. now rewrite Rltb_false by lra.
Qed.

(** Two frames showing the same hand, after a restart. *)
Lemma two_same_frames (sensitivity smoothing : R) (F : list HandLandmark)
    (k : KeyLandmarks) (g : string) (c : R) :
  length F = 21%nat ->
  key_landmarks F = Normal k ->
  apply_sensitivity sensitivity (decision_table k) = (g, c) ->
  run_frames sensitivity smoothing true [[hand_of F]; [hand_of F]] startTracking
  = {| gestureHistoryRef := [g; g];
       smoothedLandmarksRef := {[ 0%nat := F ]} |}.
Proof.
  intros HF Hk Hg. unfold run_frames. cbn [fold_left].
  rewrite (detectHands_repeat sensitivity smoothing F k startTracking HF Hk)
    by (left; apply lookup_empty).
  rewrite (detectHands_repeat sensitivity smoothing F k _ HF Hk)
    by (right; apply lookup_insert_eq).
  rewrite Hg. simpl.
  rewrite insert_insert_eq, insert_empty. reflexivity.
Qed.

Lemma two_fists :
  run_frames 0.7 0.8 true [[hand_of fist_frame]; [hand_of fist_frame]] startTracking
  = {| gestureHistoryRef := ["Fist"; "Fist"];
       smoothedLandmarksRef := {[ 0%nat := fist_frame ]} |}.
Proof.
  destruct (key_landmarks_total fist_frame) as [k Hk]; [simpl; lia|].
  exact (two_same_frames 0.7 0.8 fist_frame k "Fist" 1 eq_refl Hk (fist_frame_label k Hk)).
Qed.

(** The pointing hand on its own: index only, confidence 0.9. *)
Lemma pointing_frame_table (k : KeyLandmarks) :
  key_landmarks pointing_frame = Normal k ->
  extendedFingers k = [false; true; false; false; false] /\
  decision_table k = ("Pointing", 0.9).
Proof.
  intros Hk. injection Hk as <-.
  assert (He : extendedFingers
                 (mkKey (pt 0 0) (pt 0 (-200)) (pt 0 0) (pt 0 0) (pt 0 0)
                        (pt 0 0) (pt 0 0) (pt 0 0) (pt 0 0) (pt 0 0) (pt 0 0))
               = [false; true; false; false; false]).
  { unfold extendedFingers, thumbExtended, indexExtended, middleExtended,
      ringExtended, pinkyExtended. simpl. decide_numbers. reflexivity. }
  split; [exact He|].
  unfold extendedFingers in He. injection He as Ht Hi Hm Hr Hp.
  unfold decision_table, is_pointing, extendedCount, extendedFingers.
  rewrite Ht, Hi, Hm, Hr, Hp. reflexivity.
Qed.

(** Three fingers shown after a closed hand: the smoothed landmarks have
    middle, ring and pinky extended, which no named pattern matches. *)
Lemma three_fingers_after_fist (k : KeyLandmarks) :
  key_landmarks (zip_with (smooth_one 0.8) fist_frame three_finger_frame) = Normal k ->
  decision_table k = ("3 Fingers", 0.6).
Proof.
  intros Hk. injection Hk as <-.
  unfold decision_table, is_pointing, is_peace_sign, is_thumbs_up, is_ok_sign,
    is_rock_sign, is_call_me, extendedCount, extendedFingers, thumbExtended,
    indexExtended, middleExtended, ringExtended, pinkyExtended.
  simpl. decide_numbers. reflexivity.
Qed.

(** ** Confidence bound, frames without hands, the sensitivity gate *)

Section FrameProperties.

Variable sensitivity : R.
Variable smoothing : R.

(** On a store whose slots hold 21 landmarks, smoothing 21 landmarks
    completes normally and returns 21 landmarks. *)
Lemma smoothLandmarks_ok (refs : Refs) (cur : list HandLandmark) (slot : nat) :
  slots_ok refs -> length cur = 21%nat ->
  exists out refs',
    smoothLandmarks smoothing cur slot refs = (Normal out, refs') /\
    length out = 21%nat /\ slots_ok refs' /\
    gestureHistoryRef refs' = gestureHistoryRef refs.
Proof.
  intros Hok Hcur.
  destruct (smoothedLandmarksRef refs !! slot) as [prev|] eqn:Hslot.
  - pose proof (Hok _ _ Hslot) as Hprev.
    eexists _, _. split; [apply smoothLandmarks_next; [eassumption | lia]|].
    assert (Hlen : length (zip_with (smooth_one smoothing) prev cur) = 21%nat)
      by (rewrite length_zip_with; lia).
    split; [assumption|]. split; [|reflexivity].
    intros i l. simpl. rewrite lookup_insert.
    destruct (decide (slot = i)); [intros [= <-]; assumption | apply Hok].
  - eexists _, _. split; [now apply smoothLandmarks_first|].
    split; [assumption|]. split; [|reflexivity].
    intros i l. simpl. rewrite lookup_insert.
    destruct (decide (slot = i)); [intros [= <-]; assumption | apply Hok].
Qed.

(** C5.  On every frame of well-formed hands (none, or each with 21
    landmarks), from a store whose slots are well-formed and under every
    sensitivity and smoothing setting, [detectAdvancedGesture] returns a
    result, and its confidence lies between 0 and 1. *)
Theorem confidence_in_unit_interval (hands : list Hand) (refs : Refs) :
  Forall (fun hand => length (keypoints hand) = 21%nat) hands ->
  slots_ok refs ->
  exists r refs',
    detectAdvancedGesture sensitivity smoothing hands refs = (Normal r, refs') /\
    0 <= confidence r <= 1.
Proof.
  intros Hhands Hok. destruct hands as [|hand rest].
  - eexists _, _. split; [reflexivity|]. simpl. lra.
  - inversion_clear Hhands as [|? ? Hhand _].
    destruct (smoothLandmarks_ok refs (keypoints hand) 0 Hok Hhand)
      as (landmarks & refs1 & Hsm & Hlen & _ & _).
    destruct (key_landmarks_total landmarks) as [k Hk]; [lia|].
    destruct (detectAdvancedGesture_frame sensitivity smoothing hand rest
                refs refs1 landmarks k Hsm Hk) as (angles & winner & _ & _ & Hd).
    eexists _, _. split; [exact Hd|]. simpl. split.
    + apply Rmax_l.
    + apply Rmax_lub; [lra | apply Rmin_l].
Qed.

(** C3, as the code has it.  A frame without hands produces the fixed
    result and leaves the store, the gesture history included, exactly
    as it was: nothing is pushed. *)
Theorem no_hands_leaves_history (canvasReady : bool) (refs : Refs) :
  detectAdvancedGesture sensitivity smoothing [] refs =
    (Normal {| gesture := "No hands detected"; confidence := 0; handData := None |},
     refs) /\
  detectHands sensitivity smoothing canvasReady [] refs =
    (Some (mkEmitted "No hands detected" 0 None), refs).
Proof.
  split; [reflexivity|].
  unfold detectHands. simpl. destruct canvasReady; reflexivity.
Qed.

(** C4, as the code has it.  When the confidence selected by the decision
    table is below the sensitivity, the call returns confidence 0 and
    pushes ['Uncertain'] into the history; the gesture it returns, which
    is the one the component emits, is the vote over that history. *)
Theorem low_confidence_pushes_uncertain
    (canvasReady : bool) (hand : Hand) (rest : list Hand) (refs refs1 : Refs)
    (landmarks : list HandLandmark) (k : KeyLandmarks) :
  smoothLandmarks smoothing (keypoints hand) 0 refs = (Normal landmarks, refs1) ->
  key_landmarks landmarks = Normal k ->
  snd (decision_table k) < sensitivity ->
  exists r refs',
    detectAdvancedGesture sensitivity smoothing (hand :: rest) refs = (Normal r, refs') /\
    confidence r = 0 /\
    gestureHistoryRef refs' = push_history (gestureHistoryRef refs) "Uncertain" /\
    mostCommon (gestureHistoryRef refs') = Normal (gesture r) /\
    fst (detectHands sensitivity smoothing canvasReady (hand :: rest) refs)
      = Some (mkEmitted (gesture r) 0 (handData r)).
Proof.
  intros Hsm Hk Hlow.
  destruct (detectAdvancedGesture_frame sensitivity smoothing hand rest
              refs refs1 landmarks k Hsm Hk) as (angles & winner & _ & Hw & Hd).
  assert (Hgate : apply_sensitivity sensitivity (decision_table k) = ("Uncertain", 0)).
  { unfold apply_sensitivity. now rewrite Rltb_true. }
  rewrite Hgate in Hd, Hw. simpl in Hd, Hw.
  assert (Hh : gestureHistoryRef refs1 = gestureHistoryRef refs).
  { pose proof (smoothLandmarks_store smoothing (keypoints hand) 0 refs) as [H _].
    now rewrite Hsm in H. }
  assert (Hc : Rmax 0 (Rmin 1 0) = 0).
  { rewrite Rmin_right by lra. apply Rmax_left. lra. }
  rewrite Hc, Hh in Hd. rewrite Hh in Hw.
  eexists _, _. split; [exact Hd|]. simpl.
  split; [reflexivity|]. split; [reflexivity|]. split; [assumption|].
  unfold detectHands. simpl. rewrite Hd. reflexivity.
Qed.

End FrameProperties.

Lemma startTracking_slots_ok : slots_ok startTracking.
Proof. intros i prev H. simpl in H. rewrite lookup_empty in H. discriminate. Qed.

Lemma confidence_in_unit_interval_witness :
  exists r refs',
    detectAdvancedGesture 0.7 0.8 [hand_of pointing_frame] startTracking = (Normal r, refs') /\
    0 <= confidence r <= 1.
Proof.
  apply (confidence_in_unit_interval 0.7 0.8 [hand_of pointing_frame] startTracking).
  - constructor; [reflexivity | constructor].
  - intros i prev H. simpl in H. rewrite lookup_empty in H. discriminate.
Defined.

(** The store of C3 as stated would hold the label after a frame without
    hands; it does not. *)
Lemma no_hands_not_pushed :
  ~ In "No hands detected"
       (gestureHistoryRef (snd (detectHands 0.7 0.8 true [] startTracking))).
Proof. simpl. tauto. Qed.

(** C4 as stated fails.  After two frames of a closed hand, a frame with
    three fingers out is given confidence 0.6 by the decision table,
    below the sensitivity 0.7; what the component emits for that frame is
    ['Fist'] with confidence 0, not ['Uncertain']. *)
Lemma uncertain_frame_emits_fist :
  let refs := run_frames 0.7 0.8 true
                [[hand_of fist_frame]; [hand_of fist_frame]] startTracking in
  exists landmarks refs1 k e,
    smoothLandmarks 0.8 three_finger_frame 0 refs = (Normal landmarks, refs1) /\
    key_landmarks landmarks = Normal k /\
    decision_table k = ("3 Fingers", 0.6) /\
    fst (detectHands 0.7 0.8 true [hand_of three_finger_frame] refs) = Some e /\
    e_gesture e = "Fist" /\ e_confidence e = 0.
Proof.
  intros refs. unfold refs. rewrite two_fists.
  set (refs0 := {| gestureHistoryRef := ["Fist"; "Fist"];
                   smoothedLandmarksRef := {[ 0%nat := fist_frame ]} |}).
  assert (Hsm := smoothLandmarks_next 0.8 refs0 fist_frame three_finger_frame 0
                   (lookup_singleton_eq _ _) (le_n _)).
  set (landmarks := zip_with (smooth_one 0.8) fist_frame three_finger_frame) in Hsm.
  destruct (key_landmarks_total landmarks) as [k Hk]; [simpl; lia|].
  assert (Ht := three_fingers_after_fist k Hk).
  assert (Hg : apply_sensitivity 0.7 (decision_table k) = ("Uncertain", 0)).
  { rewrite Ht. unfold apply_sensitivity. simpl. now rewrite Rltb_true by lra. }
  destruct (detectAdvancedGesture_eval 0.7 0.8 (hand_of three_finger_frame) [] refs0 _
              landmarks k "Uncertain" "Fist" 0 Hsm Hk Hg) as (angles & _ & Hd).
  { vm_compute. reflexivity. }
  eexists landmarks, _, k, _. split; [exact Hsm|]. split; [exact Hk|]. split; [exact Ht|].
  unfold detectHands. cbn [length Nat.ltb Nat.leb hand_of].
  change (keypoints _) with three_finger_frame in Hd. fold (hand_of three_finger_frame).
  rewrite Hd. cbn [fst gesture confidence handData e_gesture e_confidence].
  split; [reflexivity|]. split; [reflexivity|].
  rewrite Rmin_right by lra. apply Rmax_left. lra.
Qed.

Lemma low_confidence_pushes_uncertain_witness :
  let refs := {| gestureHistoryRef := ["Fist"; "Fist"];
                 smoothedLandmarksRef := {[ 0%nat := fist_frame ]} |} in
  exists r refs',
    detectAdvancedGesture 0.7 0.8 [hand_of three_finger_frame] refs = (Normal r, refs') /\
    confidence r = 0 /\
    gestureHistoryRef refs' = push_history (gestureHistoryRef refs) "Uncertain" /\
    mostCommon (gestureHistoryRef refs') = Normal (gesture r) /\
    fst (detectHands 0.7 0.8 true [hand_of three_finger_frame] refs)
      = Some (mkEmitted (gesture r) 0 (handData r)).
Proof.
  intros refs.
  destruct (key_landmarks_total (zip_with (smooth_one 0.8) fist_frame three_finger_frame))
    as [k Hk]; [simpl; lia|].
  apply (low_confidence_pushes_uncertain 0.7 0.8 true (hand_of three_finger_frame) []
           refs
           {| gestureHistoryRef := ["Fist"; "Fist"];
              smoothedLandmarksRef :=
                <[0%nat := zip_with (smooth_one 0.8) fist_frame three_finger_frame]>
                  {[ 0%nat := fist_frame ]} |}
           (zip_with (smooth_one 0.8) fist_frame three_finger_frame) k).
  - apply smoothLandmarks_next; [apply lookup_singleton_eq | simpl; lia].
  - exact Hk.
  - rewrite (three_fingers_after_fist k Hk). simpl. lra.
Defined.

(** ** What the classification depends on *)

(** C6 as stated fails.  The pointing hand is shown twice after a
    restart, once with the sensitivity at 0.7 and once with it at 1; both
    runs leave the same smoothing state.  The same hand is then given to
    the classifier at sensitivity 0.7 in either store: the landmarks, the
    extension pattern and the confidence of the two results are the same,
    and the returned label is ['Pointing'] in one and ['Uncertain'] in
    the other. *)
Lemma same_frame_different_label :
  let hands := [hand_of pointing_frame] in
  let storeA := run_frames 0.7 0.8 true [hands; hands] startTracking in
  let storeB := run_frames 1 0.8 true [hands; hands] startTracking in
  smoothedLandmarksRef storeA = smoothedLandmarksRef storeB /\
  exists r1 s1 r2 s2,
    detectAdvancedGesture 0.7 0.8 hands storeA = (Normal r1, s1) /\
    detectAdvancedGesture 0.7 0.8 hands storeB = (Normal r2, s2) /\
    handData r1 = handData r2 /\
    confidence r1 = confidence r2 /\
    gesture r1 = "Pointing" /\ gesture r2 = "Uncertain".
Proof.
  intros hands storeA storeB.
  destruct (key_landmarks_total pointing_frame) as [k Hk]; [simpl; lia|].
  destruct (pointing_frame_table k Hk) as [_ Ht].
  assert (Hg07 : apply_sensitivity 0.7 (decision_table k) = ("Pointing", 0.9)).
  { rewrite Ht. unfold apply_sensitivity. simpl. now rewrite Rltb_false by lra. }
  assert (Hg1 : apply_sensitivity 1 (decision_table k) = ("Uncertain", 0)).
  { rewrite Ht. unfold apply_sensitivity. simpl. now rewrite Rltb_true by lra. }
  assert (HA : storeA = {| gestureHistoryRef := ["Pointing"; "Pointing"];
                           smoothedLandmarksRef := {[ 0%nat := pointing_frame ]} |})
    by exact (two_same_frames 0.7 0.8 pointing_frame k _ _ eq_refl Hk Hg07).
  assert (HB : storeB = {| gestureHistoryRef := ["Uncertain"; "Uncertain"];
                           smoothedLandmarksRef := {[ 0%nat := pointing_frame ]} |})
    by exact (two_same_frames 1 0.8 pointing_frame k _ _ eq_refl Hk Hg1).
  rewrite HA, HB. split; [reflexivity|].
  assert (Hsm : forall h,
            smoothLandmarks 0.8 pointing_frame 0
              {| gestureHistoryRef := h;
                 smoothedLandmarksRef := {[ 0%nat := pointing_frame ]} |}
            = (Normal pointing_frame,
               {| gestureHistoryRef := h;
                  smoothedLandmarksRef :=
                    <[0%nat := pointing_frame]> {[ 0%nat := pointing_frame ]} |})).
  { intros h.
    rewrite (smoothLandmarks_next 0.8 _ pointing_frame pointing_frame 0
               (lookup_singleton_eq _ _) (le_n _)).
    simpl gestureHistoryRef. simpl smoothedLandmarksRef.
    now rewrite zip_with_smooth_same. }
  destruct (detectAdvancedGesture_eval 0.7 0.8 (hand_of pointing_frame) [] _ _
              pointing_frame k "Pointing" "Pointing" 0.9
              (Hsm ["Pointing"; "Pointing"]) Hk Hg07) as (angles1 & Ha1 & Hd1).
  { vm_compute. reflexivity. }
  destruct (detectAdvancedGesture_eval 0.7 0.8 (hand_of pointing_frame) [] _ _
              pointing_frame k "Pointing" "Uncertain" 0.9
              (Hsm ["Uncertain"; "Uncertain"]) Hk Hg07) as (angles2 & Ha2 & Hd2).
  { vm_compute. reflexivity. }
  rewrite Ha1 in Ha2. injection Ha2 as <-.
  eexists _, _, _, _. split; [exact Hd1|]. split; [exact Hd2|]. simpl. auto.
Qed.

(** C6, as the code has it.  Two calls of [detectAdvancedGesture] on the
    same hands, from stores that agree on the smoothing state of slot 0
    and may differ in everything else, complete alike; when they return,
    the confidence and the hand data are the same, the same raw label has
    been pushed into either history, and the gesture each call returns is
    the vote over its own history. *)
Theorem classification_ignores_history
    (sensitivity smoothing : R) (hands : list Hand) (refs1 refs2 : Refs) :
  smoothedLandmarksRef refs1 !! 0%nat = smoothedLandmarksRef refs2 !! 0%nat ->
  match detectAdvancedGesture sensitivity smoothing hands refs1,
        detectAdvancedGesture sensitivity smoothing hands refs2 with
  | (Normal r1, s1), (Normal r2, s2) =>
      confidence r1 = confidence r2 /\
      handData r1 = handData r2 /\
      smoothedLandmarksRef s1 !! 0%nat = smoothedLandmarksRef s2 !! 0%nat /\
      (hands = [] /\ gesture r1 = gesture r2 \/
       exists g,
         gestureHistoryRef s1 = push_history (gestureHistoryRef refs1) g /\
         gestureHistoryRef s2 = push_history (gestureHistoryRef refs2) g /\
         mostCommon (gestureHistoryRef s1) = Normal (gesture r1) /\
         mostCommon (gestureHistoryRef s2) = Normal (gesture r2))
  | (TypeError, _), (TypeError, _) => True
  | _, _ => False
  end.
Proof.
  intros Hslot. destruct hands as [|hand rest].
  - simpl. split; [reflexivity|]. split; [reflexivity|]. split; [assumption|].
    left. split; reflexivity.
  - assert (Hsm : exists c t1 t2,
              smoothLandmarks smoothing (keypoints hand) 0 refs1 = (c, t1) /\
              smoothLandmarks smoothing (keypoints hand) 0 refs2 = (c, t2) /\
              gestureHistoryRef t1 = gestureHistoryRef refs1 /\
              gestureHistoryRef t2 = gestureHistoryRef refs2 /\
              smoothedLandmarksRef t1 !! 0%nat = smoothedLandmarksRef t2 !! 0%nat).
    { destruct (smoothedLandmarksRef refs2 !! 0%nat) as [prev|] eqn:H2.
      - destruct (Nat.le_gt_cases (length (keypoints hand)) (length prev)) as [Hle|Hgt].
        + eexists _, _, _.
          split; [eapply smoothLandmarks_next; eassumption|].
          split; [eapply smoothLandmarks_next; eassumption|].
          simpl. rewrite !lookup_insert_eq. auto.
        + eexists _, _, _.
          split; [eapply smoothLandmarks_short; eassumption|].
          split; [eapply smoothLandmarks_short; eassumption|].
          rewrite Hslot, H2. auto.
      - eexists _, _, _.
        split; [eapply smoothLandmarks_first; eassumption|].
        split; [eapply smoothLandmarks_first; eassumption|].
        simpl. rewrite !lookup_insert_eq. auto. }
    destruct Hsm as (c & t1 & t2 & Hsm1 & Hsm2 & Hh1 & Hh2 & Ht).
    destruct c as [landmarks|].
    + destruct (key_landmarks landmarks) as [k|] eqn:Hk.
      * destruct (detectAdvancedGesture_frame sensitivity smoothing hand rest
                    refs1 t1 landmarks k Hsm1 Hk) as (a1 & w1 & Ha1 & Hw1 & Hd1).
        destruct (detectAdvancedGesture_frame sensitivity smoothing hand rest
                    refs2 t2 landmarks k Hsm2 Hk) as (a2 & w2 & Ha2 & Hw2 & Hd2).
        rewrite Hd1, Hd2. simpl.
        rewrite Ha1 in Ha2. injection Ha2 as <-.
        split; [reflexivity|]. split; [reflexivity|]. split; [assumption|].
        right. eexists. rewrite <- Hh1, <- Hh2. auto.
      * unfold detectAdvancedGesture, bind, lift. rewrite Hsm1, Hsm2, Hk.
        destruct (calculateFingerAngles landmarks); exact I.
    + unfold detectAdvancedGesture, bind. rewrite Hsm1, Hsm2. exact I.
Qed.

Lemma classification_ignores_history_witness :
  match detectAdvancedGesture 0.7 0.8 [hand_of pointing_frame] startTracking,
        detectAdvancedGesture 0.7 0.8 [hand_of pointing_frame]
          {| gestureHistoryRef := ["Fist"; "Fist"]; smoothedLandmarksRef := ∅ |} with
  | (Normal r1, s1), (Normal r2, s2) =>
      confidence r1 = confidence r2 /\
      handData r1 = handData r2 /\
      smoothedLandmarksRef s1 !! 0%nat = smoothedLandmarksRef s2 !! 0%nat /\
      ([hand_of pointing_frame] = [] /\ gesture r1 = gesture r2 \/
       exists g,
         gestureHistoryRef s1 = push_history (gestureHistoryRef startTracking) g /\
         gestureHistoryRef s2 = push_history ["Fist"; "Fist"] g /\
         mostCommon (gestureHistoryRef s1) = Normal (gesture r1) /\
         mostCommon (gestureHistoryRef s2) = Normal (gesture r2))
  | (TypeError, _), (TypeError, _) => True
  | _, _ => False
  end.
Proof.
  apply (classification_ignores_history 0.7 0.8 [hand_of pointing_frame] startTracking
           {| gestureHistoryRef := ["Fist"; "Fist"]; smoothedLandmarksRef := ∅ |}).
  reflexivity.
Defined.

(** ** Invariants of the store *)

Section Invariants.

Variable sensitivity : R.
Variable smoothing : R.

(** Every label that the component pushes into the history is plain, so
    that [JSObject] is the behaviour of the object that counts them. *)
Lemma pushed_label_plain (k : KeyLandmarks) :
  plain_label (fst (apply_sensitivity sensitivity (decision_table k))) = true.
Proof.
  unfold apply_sensitivity. destruct (Rltb _ _); [reflexivity|].
  pose proof (decision_table_label k) as Hl.
  unfold table_labels in Hl. simpl in Hl.
  repeat (destruct Hl as [<-|Hl]; [reflexivity|]). destruct Hl.
Qed.

Lemma push_history_plain (history : list string) (g : string) :
  Forall (fun l => plain_label l = true) history -> plain_label g = true ->
  Forall (fun l => plain_label l = true) (push_history history g).
Proof.
  intros Hh Hg. unfold push_history.
  assert (Hall : Forall (fun l => plain_label l = true) (history ++ [g]))
    by (apply Forall_app; split; [assumption | constructor; [assumption | constructor]]).
  destruct (5 <? length (history ++ [g]))%nat; [|assumption].
  destruct (history ++ [g])%list; [constructor|]. now inversion Hall.
Qed.

(** What a call of [detectAdvancedGesture] does to the history: nothing,
    or one push of a gated label of the decision table. *)
Lemma detectAdvancedGesture_history (hands : list Hand) (refs : Refs) :
  let refs' := snd (detectAdvancedGesture sensitivity smoothing hands refs) in
  gestureHistoryRef refs' = gestureHistoryRef refs \/
  exists k, gestureHistoryRef refs' =
            push_history (gestureHistoryRef refs)
                         (fst (apply_sensitivity sensitivity (decision_table k))).
Proof.
  destruct hands as [|hand rest]; [left; reflexivity|]. cbv zeta.
  pose proof (smoothLandmarks_store smoothing (keypoints hand) 0 refs) as [Hh _].
  destruct (smoothLandmarks smoothing (keypoints hand) 0 refs) as [[landmarks|] refs1] eqn:Hsm.
  - destruct (key_landmarks landmarks) as [k|] eqn:Hk.
    + destruct (detectAdvancedGesture_frame sensitivity smoothing hand rest
                  refs refs1 landmarks k Hsm Hk) as (a & w & _ & _ & Hd).
      right. exists k. rewrite Hd. simpl in *. now rewrite Hh.
    + left. unfold detectAdvancedGesture, bind, lift. rewrite Hsm, Hk.
      destruct (calculateFingerAngles landmarks); exact Hh.
  - left. unfold detectAdvancedGesture, bind. rewrite Hsm. exact Hh.
Qed.

(** Processing a frame keeps the history plain and at most five long. *)
Lemma detectHands_history (canvasReady : bool) (hands : list Hand) (refs : Refs) :
  let refs' := snd (detectHands sensitivity smoothing canvasReady hands refs) in
  (Forall (fun l => plain_label l = true) (gestureHistoryRef refs) ->
   Forall (fun l => plain_label l = true) (gestureHistoryRef refs')) /\
  ((length (gestureHistoryRef refs) <= 5)%nat ->
   (length (gestureHistoryRef refs') <= 5)%nat).
Proof.
  cbv zeta.
  assert (Hdraw : forall s,
            gestureHistoryRef (snd (drawAdvancedHands smoothing canvasReady hands s))
            = gestureHistoryRef s).
  { intros s. unfold drawAdvancedHands. destruct canvasReady; [|reflexivity].
    apply draw_from_store. }
  assert (Hstep : gestureHistoryRef
                    (snd (detectHands sensitivity smoothing canvasReady hands refs))
                  = gestureHistoryRef
                      (snd (detectAdvancedGesture sensitivity smoothing hands refs))).
  { unfold detectHands. destruct hands as [|hand rest]; cbn [length Nat.ltb Nat.leb snd].
    - rewrite Hdraw. reflexivity.
    - destruct (detectAdvancedGesture sensitivity smoothing (hand :: rest) refs)
        as [[r|] refs1]; cbn [snd]; [apply Hdraw | reflexivity]. }
  rewrite Hstep.
  destruct (detectAdvancedGesture_history hands refs) as [-> | [k ->]]; [auto|].
  split; intros H.
  - apply push_history_plain; [assumption | apply pushed_label_plain].
  - now apply push_history_length.
Qed.

Lemma draw_from_slots_ok (hands : list Hand) :
  forall (i : nat) (refs : Refs),
  Forall (fun hand => length (keypoints hand) = 21%nat) hands ->
  slots_ok refs -> slots_ok (snd (draw_from smoothing i hands refs)).
Proof.
  induction hands as [|hand rest IH]; intros i refs Hhands Hok; [exact Hok|].
  inversion_clear Hhands as [|? ? Hhand Hrest].
  destruct (smoothLandmarks_ok smoothing refs (keypoints hand) i Hok Hhand)
    as (out & refs1 & Hsm & _ & Hok1 & _).
  cbn [draw_from]. unfold bind. rewrite Hsm.
  destruct (skeleton_readable out); simpl; [now apply IH | assumption].
Qed.

(** Processing a frame of well-formed hands keeps the slots well-formed. *)
Lemma detectHands_slots_ok (canvasReady : bool) (hands : list Hand) (refs : Refs) :
  Forall (fun hand => length (keypoints hand) = 21%nat) hands ->
  slots_ok refs ->
  slots_ok (snd (detectHands sensitivity smoothing canvasReady hands refs)).
Proof.
  intros Hhands Hok.
  assert (Hdraw : forall s, slots_ok s ->
            slots_ok (snd (drawAdvancedHands smoothing canvasReady hands s))).
  { intros s Hs. unfold drawAdvancedHands. destruct canvasReady; [|exact Hs].
    now apply draw_from_slots_ok. }
  unfold detectHands. destruct hands as [|hand rest]; cbn [length Nat.ltb Nat.leb snd].
  - now apply Hdraw.
  - inversion Hhands as [|? ? Hhand _]; subst.
    destruct (smoothLandmarks_ok smoothing refs (keypoints hand) 0 Hok Hhand)
      as (landmarks & refs1 & Hsm & Hlen & Hok1 & _).
    destruct (key_landmarks_total landmarks) as [k Hk]; [lia|].
    destruct (detectAdvancedGesture_frame sensitivity smoothing hand rest
                refs refs1 landmarks k Hsm Hk) as (a & w & _ & _ & Hd).
    rewrite Hd. cbn [snd]. apply Hdraw. intros i prev. simpl. apply Hok1.
Qed.

(** X15.  Every store reached from a restart through well-formed frames is
    well-formed, with a plain history of at most five labels. *)
Lemma run_frames_invariant (canvasReady : bool) (frames : list (list Hand)) :
  Forall (Forall (fun hand => length (keypoints hand) = 21%nat)) frames ->
  let refs := run_frames sensitivity smoothing canvasReady frames startTracking in
  slots_ok refs /\
  Forall (fun l => plain_label l = true) (gestureHistoryRef refs) /\
  (length (gestureHistoryRef refs) <= 5)%nat.
Proof.
  intros Hframes. cbv zeta. unfold run_frames.
  assert (Hgen : forall refs,
            slots_ok refs /\
            Forall (fun l => plain_label l = true) (gestureHistoryRef refs) /\
            (length (gestureHistoryRef refs) <= 5)%nat ->
            let refs' := fold_left
                (fun s hands => snd (detectHands sensitivity smoothing canvasReady hands s))
                frames refs in
            slots_ok refs' /\
            Forall (fun l => plain_label l = true) (gestureHistoryRef refs') /\
            (length (gestureHistoryRef refs') <= 5)%nat).
  { induction Hframes as [|hands frames Hhands _ IH]; intros refs Hinv; [exact Hinv|].
    simpl. apply IH. destruct Hinv as (Hok & Hplain & Hlen).
    destruct (detectHands_history canvasReady hands refs) as [Hp Hl].
    split; [now apply detectHands_slots_ok|]. split; [now apply Hp | now apply Hl]. }
  apply Hgen. split; [exact startTracking_slots_ok|].
  split; [constructor | simpl; lia].
Qed.

End Invariants.

(** * Further properties of the component *)

(** ** The smoother as a filter *)







(** ** The finger angles *)




Lemma joint_angle_range (p1 p2 p3 : HandLandmark) :
  angle_in_range (joint_angle p1 p2 p3).
Proof.
  unfold joint_angle. cbv zeta.
  destruct (Req_dec_T _ 0) as [E|N]; simpl; [exact I|].
  match goal with |- 0 <= acos ?v * _ <= _ => pose proof (acos_bound v) as Hb end.
  pose proof PI_RGT_0 as Hpi.
  assert (Hk : 0 < 180 / PI) by (apply Rdiv_lt_0_compat; lra).
  assert (Hpk : PI * (180 / PI) = 180) by (field; lra).
  split; nra.
Qed.

Lemma calculateFingerAngles_short (landmarks : list HandLandmark) :
  (length landmarks < 21)%nat -> calculateFingerAngles landmarks = TypeError.
Proof.
  intros H.
  do 21 (destruct landmarks as [|? landmarks]; [reflexivity|]).
  simpl in H. lia.
Qed.

Lemma calculateFingerAngles_long (landmarks : list HandLandmark) :
  (21 <= length landmarks)%nat ->
  exists angles,
    calculateFingerAngles landmarks = Normal angles /\
    length angles = 5%nat /\
    Forall (fun finger => length finger = 2%nat /\ Forall angle_in_range finger) angles.
Proof.
  intros H. split_frame landmarks H. eexists. split; [reflexivity|].
  split; [reflexivity|].
  repeat (constructor; [split; [reflexivity | repeat (constructor; [apply joint_angle_range|]); constructor]|]).
  constructor.
Qed.

(** X5.  [calculateFingerAngles] completes exactly on arrays of at least 21
    landmarks (on shorter ones it reads a property of [undefined]); it
    then returns two angles for each of the five fingers, and every angle
    that is a number lies between 0 and 180 degrees. *)
Theorem calculateFingerAngles_shape (landmarks : list HandLandmark) :
  match calculateFingerAngles landmarks with
  | Normal angles =>
      (21 <= length landmarks)%nat /\
      length angles = 5%nat /\
      Forall (fun finger => length finger = 2%nat /\ Forall angle_in_range finger) angles
  | TypeError => (length landmarks < 21)%nat
  end.
Proof.
  destruct (le_lt_dec 21 (length landmarks)) as [Hge|Hlt].
  - destruct (calculateFingerAngles_long landmarks Hge) as (angles & -> & H5 & H2). auto.
  - now rewrite calculateFingerAngles_short.
Qed.

(** ** A malformed frame *)

Section Stall.

Variable sensitivity : R.
Variable smoothing : R.
Variable canvasReady : bool.

(** A hand with more keypoints than the stored array of slot 0: the
    smoother throws, nothing is emitted and nothing is written. *)
Lemma detectHands_stalled (hand : Hand) (rest : list Hand) (refs : Refs)
    (prev : list HandLandmark) :
  smoothedLandmarksRef refs !! 0%nat = Some prev ->
  (length prev < length (keypoints hand))%nat ->
  detectHands sensitivity smoothing canvasReady (hand :: rest) refs = (None, refs).
Proof.
  intros Hslot Hlen. unfold detectHands. cbn [length Nat.ltb Nat.leb].
  unfold detectAdvancedGesture, bind.
  rewrite (smoothLandmarks_short smoothing refs prev (keypoints hand) 0 Hslot Hlen).
  reflexivity.
Qed.

(** A hand with fewer than 21 keypoints on an empty slot 0: the array is
    stored, then reading the finger joints throws. *)
Lemma detectHands_poisoned (hand : Hand) (rest : list Hand) (refs : Refs) :
  smoothedLandmarksRef refs !! 0%nat = None ->
  (length (keypoints hand) < 21)%nat ->
  detectHands sensitivity smoothing canvasReady (hand :: rest) refs =
    (None, {| gestureHistoryRef := gestureHistoryRef refs;
              smoothedLandmarksRef := <[0%nat := keypoints hand]> (smoothedLandmarksRef refs) |}).
Proof.
  intros Hslot Hlen. unfold detectHands. cbn [length Nat.ltb Nat.leb].
  unfold detectAdvancedGesture, bind, lift.
  rewrite (smoothLandmarks_first smoothing refs (keypoints hand) 0 Hslot).
  rewrite (calculateFingerAngles_short _ Hlen). reflexivity.
Qed.

Lemma stalled_run (prev : list HandLandmark) (frames : list (list Hand)) :
  forall refs,
  smoothedLandmarksRef refs !! 0%nat = Some prev ->
  Forall (fun hands => exists hand tl, hands = hand :: tl /\
                       (length prev < length (keypoints hand))%nat) frames ->
  run_events sensitivity smoothing canvasReady frames refs
    = List.repeat None (length frames) /\
  run_frames sensitivity smoothing canvasReady frames refs = refs.
Proof.
  induction frames as [|hands frames IH]; intros refs Hslot Hall.
  - split; reflexivity.
  - inversion_clear Hall as [|? ? (hand & tl & -> & Hlen) Hrest].
    unfold run_frames. cbn [run_events fold_left length List.repeat].
    rewrite (detectHands_stalled hand tl refs prev Hslot Hlen). cbn [fst snd].
    destruct (IH refs Hslot Hrest) as [He Hf].
    split; [now rewrite He | exact Hf].
Qed.

(** X6.  One hand with fewer than 21 keypoints, seen while slot 0 is empty,
    silences the component: that frame and every later frame with a
    21-keypoint hand emit nothing, the gesture history is never pushed
    to, and slot 0 keeps the short array (until a restart). *)
Theorem short_frame_stalls
    (bad : Hand) (rest : list Hand) (frames : list (list Hand)) (refs : Refs) :
  smoothedLandmarksRef refs !! 0%nat = None ->
  (length (keypoints bad) < 21)%nat ->
  Forall (fun hands => exists hand tl, hands = hand :: tl /\
                       length (keypoints hand) = 21%nat) frames ->
  let after := run_frames sensitivity smoothing canvasReady ((bad :: rest) :: frames) refs in
  run_events sensitivity smoothing canvasReady ((bad :: rest) :: frames) refs
    = List.repeat None (S (length frames)) /\
  gestureHistoryRef after = gestureHistoryRef refs /\
  smoothedLandmarksRef after !! 0%nat = Some (keypoints bad).
Proof.
  intros Hslot Hbad Hall after. unfold after, run_frames.
  cbn [run_events fold_left length List.repeat].
  rewrite (detectHands_poisoned bad rest refs Hslot Hbad). cbn [fst snd].
  match goal with |- context [run_events _ _ _ frames ?s] => set (refs1 := s) end.
  destruct (stalled_run (keypoints bad) frames refs1) as [He Hf].
  { unfold refs1. simpl. apply lookup_insert_eq. }
  { eapply List.Forall_impl; [|exact Hall].
    intros hands (hand & tl & -> & H21). exists hand, tl. split; [reflexivity | lia]. }
  rewrite He. unfold run_frames in Hf. rewrite Hf.
  split; [reflexivity|]. split; [reflexivity|]. unfold refs1. simpl. apply lookup_insert_eq.
Qed.

End Stall.

Lemma short_frame_stalls_witness :
  let bad := hand_of (replicate 5 (pt 0 0)) in
  let frames := [[hand_of pointing_frame]; [hand_of fist_frame]] in
  let after := run_frames 0.7 0.8 true ([bad] :: frames) startTracking in
  run_events 0.7 0.8 true ([bad] :: frames) startTracking
    = List.repeat None (S (length frames)) /\
  gestureHistoryRef after = gestureHistoryRef startTracking /\
  smoothedLandmarksRef after !! 0%nat = Some (keypoints bad).
Proof.
  intros bad frames.
  apply (short_frame_stalls 0.7 0.8 true bad [] frames startTracking).
  - apply lookup_empty.
  - simpl. lia.
  - repeat constructor; eexists _, _; (split; [reflexivity|reflexivity]).
Defined.

(** ** Which label a frame is given *)

Ltac by_flags k :=
  unfold decision_table, is_pointing, is_peace_sign, is_thumbs_up, is_ok_sign,
    is_rock_sign, is_call_me, extendedCount, extendedFingers;
  destruct (thumbExtended k), (indexExtended k), (middleExtended k),
    (ringExtended k), (pinkyExtended k); simpl.

(** X7.  The decision table read as a partition of the 32 extension patterns:
    each named label stands for exactly one condition on the five flags.
    In particular the thumb plays no part in ['Pointing'], ['Peace Sign']
    and ['Rock Sign']. *)
Theorem decision_table_by_pattern (k : KeyLandmarks) :
  (fst (decision_table k) = "Fist" <-> extendedCount k = 0%nat) /\
  (fst (decision_table k) = "Open Hand" <-> extendedCount k = 5%nat) /\
  (fst (decision_table k) = "Pointing" <-> is_pointing k = true) /\
  (fst (decision_table k) = "Peace Sign" <-> is_peace_sign k = true) /\
  (fst (decision_table k) = "Thumbs Up" <-> is_thumbs_up k = true) /\
  (fst (decision_table k) = "Rock Sign" <-> is_rock_sign k = true) /\
  (fst (decision_table k) = "Call Me" <-> is_call_me k = true).
Proof. by_flags k; repeat split; intros H; first [reflexivity | discriminate H]. Qed.

Lemma apply_sensitivity_label (sensitivity : R) (gc : string * R) (l : string) :
  l <> "Uncertain" ->
  fst (apply_sensitivity sensitivity gc) = l <-> fst gc = l /\ sensitivity <= snd gc.
Proof.
  intros Hl. unfold apply_sensitivity, Rltb.
  destruct (Rlt_dec (snd gc) sensitivity) as [Hlt|Hge]; simpl.
  - split; [intros <-; contradiction | intros [_ H]; lra].
  - split; [intros H; split; [exact H | lra] | intros [H _]; exact H].
Qed.

Lemma fixed_confidence (k : KeyLandmarks) :
  (fst (decision_table k) = "Pointing" -> snd (decision_table k) = 0.9) /\
  (fst (decision_table k) = "Thumbs Up" -> snd (decision_table k) = 0.85) /\
  (fst (decision_table k) = "Rock Sign" -> snd (decision_table k) = 0.75) /\
  (fst (decision_table k) = "Call Me" -> snd (decision_table k) = 0.7) /\
  (In (fst (decision_table k)) fallback_labels -> snd (decision_table k) = 0.6).
Proof.
  by_flags k; repeat split; intros H; try reflexivity; try discriminate H;
    exfalso; unfold fallback_labels in H; simpl in H;
    repeat (destruct H as [H|H]; [discriminate H|]); exact H.
Qed.

Lemma pushed_iff (sensitivity : R) (k : KeyLandmarks) (l : string) (c : R) :
  l <> "Uncertain" ->
  (fst (decision_table k) = l -> snd (decision_table k) = c) ->
  fst (apply_sensitivity sensitivity (decision_table k)) = l <->
  fst (decision_table k) = l /\ sensitivity <= c.
Proof.
  intros Hl Hc. rewrite (apply_sensitivity_label _ _ _ Hl).
  split; intros [H1 H2]; (split; [exact H1|]); rewrite (Hc H1) in *; exact H2.
Qed.

(** X8.  When a fixed-confidence label is pushed into the history: exactly
    when its pattern is shown and the sensitivity does not exceed its
    confidence.  A count label (['1 Finger'] to ['4 Fingers']) needs a
    sensitivity of at most 0.6, so that none is ever pushed at the
    default sensitivity 0.7. *)
Theorem pushed_fixed_labels (sensitivity : R) (k : KeyLandmarks) :
  let pushed := fst (apply_sensitivity sensitivity (decision_table k)) in
  (pushed = "Pointing" <-> is_pointing k = true /\ sensitivity <= 0.9) /\
  (pushed = "Thumbs Up" <-> is_thumbs_up k = true /\ sensitivity <= 0.85) /\
  (pushed = "Rock Sign" <-> is_rock_sign k = true /\ sensitivity <= 0.75) /\
  (pushed = "Call Me" <-> is_call_me k = true /\ sensitivity <= 0.7) /\
  (In pushed fallback_labels <->
   In (fst (decision_table k)) fallback_labels /\ sensitivity <= 0.6).
Proof.
  cbv zeta.
  destruct (decision_table_by_pattern k) as (_ & _ & Hp & _ & Ht & Hr & Hc).
  destruct (fixed_confidence k) as (Cp & Ct & Cr & Cc & Cf).
  split; [rewrite <- Hp; apply pushed_iff; [discriminate | exact Cp]|].
  split; [rewrite <- Ht; apply pushed_iff; [discriminate | exact Ct]|].
  split; [rewrite <- Hr; apply pushed_iff; [discriminate | exact Cr]|].
  split; [rewrite <- Hc; apply pushed_iff; [discriminate | exact Cc]|].
  assert (Hl : forall l, In l fallback_labels ->
            fst (apply_sensitivity sensitivity (decision_table k)) = l <->
            fst (decision_table k) = l /\ sensitivity <= 0.6).
  { intros l Hin. apply pushed_iff.
    - intros ->. unfold fallback_labels in Hin. simpl in Hin.
      repeat (destruct Hin as [Hin|Hin]; [discriminate Hin|]). exact Hin.
    - intros H. apply Cf. rewrite H. exact Hin. }
  split.
  - intros Hin. destruct (proj1 (Hl _ Hin) eq_refl) as [H1 H2].
    split; [rewrite H1; exact Hin | exact H2].
  - intros [Hin H2]. rewrite (proj2 (Hl _ Hin) (conj eq_refl H2)). exact Hin.
Qed.




(** ** The history as a sliding window, and the vote over it *)

Lemma push_history_drop (h : list string) (g : string) :
  (length h <= 5)%nat ->
  push_history h g = drop (length h + 1 - 5) (h ++ [g])%list.
Proof.
  intros Hlen. unfold push_history. rewrite length_app. simpl.
  destruct (Nat.ltb_spec 5 (length h + 1)) as [Hlt|Hge].
  - replace (length h + 1 - 5)%nat with 1%nat by lia.
    destruct h; simpl; [simpl in Hlt; lia | reflexivity].
  - replace (length h + 1 - 5)%nat with 0%nat by lia. reflexivity.
Qed.

Lemma push_history_window (l : list string) (g : string) :
  push_history (drop (length l - 5) l) g
  = drop (length (l ++ [g]) - 5) (l ++ [g])%list.
Proof.
  rewrite push_history_drop by (rewrite length_drop; lia).
  rewrite length_drop, length_app. simpl.
  destruct (Nat.le_gt_cases 5 (length l)) as [Hge|Hlt].
  - replace (length l - (length l - 5) + 1 - 5)%nat with 1%nat by lia.
    rewrite drop_app_le by (rewrite length_drop; lia).
    rewrite drop_drop, drop_app_le by lia.
    do 2 f_equal. lia.
  - replace (length l - 5)%nat with 0%nat by lia.
    replace (length l - 0 + 1 - 5)%nat with 0%nat by lia.
    replace (length l + 1 - 5)%nat with 0%nat by lia. reflexivity.
Qed.

(** X10.  The gesture history is a sliding window: whatever labels are pushed
    after a restart, the history holds the last five of them, in order. *)
Theorem history_is_last_five (labels : list string) :
  push_all [] labels = drop (length labels - 5) labels.
Proof.
  induction labels as [|g labels IH] using rev_ind; [reflexivity|].
  unfold push_all in *. rewrite fold_left_app. simpl. rewrite IH.
  apply push_history_window.
Qed.

Lemma mostCommon_max (h : list string) :
  h <> [] ->
  exists w, mostCommon h = Normal w /\ In w h /\
            forall g, (occurrences g h <= occurrences w h)%nat.
Proof.
  intros Hne.
  destruct (mostCommon_total h Hne) as (w & Hw & Hin).
  exists w. split; [exact Hw|]. split; [exact Hin|].
  unfold mostCommon in Hw. cbv zeta in Hw.
  set (pick := fun a b : string * nat => if count_gt _ _ then a else b) in Hw.
  assert (Hall : Forall (fun e => In (fst e) h) (gestureCount h)).
  { apply List.Forall_forall. intros e'. apply gestureCount_entry. }
  assert (Hkeys : forall g, In g h -> In g (keys (gestureCount h)))
    by (intros g; apply keys_gestureCount).
  destruct (gestureCount h) as [|e gc'] eqn:Egc; [discriminate Hw|].
  simpl in Hw. injection Hw as Hw.
  inversion Hall as [|? ? He Hgc' [E1 E2]]. clear E1 E2.
  destruct (fold_pick_last_max (fun e => occurrences (fst e) h) pick
              (fun e => In (fst e) h)) with (l := gc') (a := e)
    as (l1 & w' & l2 & Hsplit & Hw' & HPw & H1 & H2); try assumption.
  { intros a b Ha Hb. unfold pick. rewrite <- Egc.
    rewrite (gestureCount_lookup h (fst a) Ha), (gestureCount_lookup h (fst b) Hb).
    reflexivity. }
  subst w. rewrite Hw'.
  intros g. destruct (in_dec string_dec g h) as [Hg|Hg].
  - apply Hkeys in Hg. unfold keys in Hg. rewrite Hsplit in Hg.
    apply in_map_iff in Hg as (e' & <- & He').
    rewrite List.Forall_forall in H1, H2.
    apply in_app_or in He' as [He'|[<-|He']].
    + now apply H1.
    + lia.
    + apply Nat.lt_le_incl. now apply H2.
  - unfold occurrences at 1. rewrite (proj1 (count_occ_not_In string_dec h g) Hg). lia.
Qed.

Lemma occurrences_disjoint (g w : string) (h : list string) :
  g <> w -> (occurrences g h + occurrences w h <= length h)%nat.
Proof.
  intros Hne. unfold occurrences. induction h as [|a h IH]; simpl; [lia|].
  destruct (string_dec a g), (string_dec a w); subst; try contradiction; lia.
Qed.

(** X11.  A label that fills more than half of the history is the debounced
    output, wherever in the history it stands. *)
Theorem majority_wins (h : list string) (g : string) :
  (length h < 2 * occurrences g h)%nat -> mostCommon h = Normal g.
Proof.
  intros Hmaj.
  assert (Hne : h <> []) by (intros ->; simpl in Hmaj; lia).
  destruct (mostCommon_max h Hne) as (w & Hw & _ & Hmax).
  destruct (string_dec g w) as [->|Hgw]; [exact Hw|].
  pose proof (occurrences_disjoint g w h Hgw). specialize (Hmax g). lia.
Qed.

Lemma majority_wins_witness :
  mostCommon ["Fist"; "Pointing"; "Fist"; "Uncertain"; "Fist"] = Normal "Fist".
Proof.
  apply (majority_wins ["Fist"; "Pointing"; "Fist"; "Uncertain"; "Fist"] "Fist").
  vm_compute. lia.
Defined.

(** ** What the component emits *)

Lemma push_history_Forall (P : string -> Prop) (history : list string) (g : string) :
  Forall P history -> P g -> Forall P (push_history history g).
Proof.
  intros Hh Hg. unfold push_history.
  assert (Hall : Forall P (history ++ [g]))
    by (apply Forall_app; split; [assumption | constructor; [assumption | constructor]]).
  destruct (5 <? length (history ++ [g]))%nat; [|assumption].
  destruct (history ++ [g])%list; [constructor|]. now inversion Hall.
Qed.

Lemma mostCommon_singleton (g : string) : mostCommon [g] = Normal g.
Proof. reflexivity. Qed.

Section Emission.

Variable sensitivity : R.
Variable smoothing : R.
Variable canvasReady : bool.

Lemma drawAdvancedHands_history (hands : list Hand) (refs : Refs) :
  gestureHistoryRef (snd (drawAdvancedHands smoothing canvasReady hands refs))
  = gestureHistoryRef refs.
Proof.
  unfold drawAdvancedHands. destruct canvasReady; [|reflexivity]. apply draw_from_store.
Qed.

Lemma pushed_label_known (k : KeyLandmarks) :
  In (fst (apply_sensitivity sensitivity (decision_table k)))
     (table_labels ++ ["Uncertain"])%list.
Proof.
  apply in_or_app. unfold apply_sensitivity.
  destruct (Rltb _ _); [right; now left | left; apply decision_table_label].
Qed.

(** One processed frame: the history it leaves is the one it found or
    that with a known label pushed, and a gesture it emits is the fixed
    ['No hands detected'] or stands in the history it leaves. *)
Lemma detectHands_emission (hands : list Hand) (refs : Refs) :
  let out := detectHands sensitivity smoothing canvasReady hands refs in
  (gestureHistoryRef (snd out) = gestureHistoryRef refs \/
   exists k, gestureHistoryRef (snd out) =
             push_history (gestureHistoryRef refs)
                          (fst (apply_sensitivity sensitivity (decision_table k)))) /\
  (forall e, fst out = Some e ->
     e_gesture e = "No hands detected" \/ In (e_gesture e) (gestureHistoryRef (snd out))).
Proof.
  cbv zeta. unfold detectHands.
  destruct hands as [|hand rest]; cbn [length Nat.ltb Nat.leb fst snd].
  - rewrite drawAdvancedHands_history. split; [now left|].
    intros e [= <-]. now left.
  - pose proof (smoothLandmarks_store smoothing (keypoints hand) 0 refs) as [Hh _].
    destruct (smoothLandmarks smoothing (keypoints hand) 0 refs)
      as [[landmarks|] refs1] eqn:Hsm; simpl in Hh.
    + destruct (key_landmarks landmarks) as [k|] eqn:Hk.
      * destruct (detectAdvancedGesture_frame sensitivity smoothing hand rest
                    refs refs1 landmarks k Hsm Hk) as (a & w & _ & Hw & Hd).
        rewrite Hd. cbn [fst snd]. rewrite drawAdvancedHands_history. simpl.
        rewrite Hh in *. split; [right; now exists k|].
        intros e [= <-]. simpl. right.
        destruct (mostCommon_total _ (push_history_nonempty (gestureHistoryRef refs)
                    (fst (apply_sensitivity sensitivity (decision_table k)))))
          as (w' & Hw' & Hin).
        rewrite Hw in Hw'. injection Hw' as <-. exact Hin.
      * unfold detectAdvancedGesture, bind, lift. rewrite Hsm, Hk.
        destruct (calculateFingerAngles landmarks); simpl;
          (split; [now left | discriminate]).
    + unfold detectAdvancedGesture, bind. rewrite Hsm. simpl.
      split; [now left | discriminate].
Qed.

Lemma run_events_known (frames : list (list Hand)) :
  forall refs,
  Forall (fun l => In l (table_labels ++ ["Uncertain"])%list) (gestureHistoryRef refs) ->
  Forall (fun ev => match ev with
                    | Some e => In (e_gesture e) emitted_labels
                    | None => True
                    end)
         (run_events sensitivity smoothing canvasReady frames refs).
Proof.
  induction frames as [|hands frames IH]; intros refs Hinv; [constructor|].
  cbn [run_events].
  destruct (detectHands_emission hands refs) as [Hstep Hemit]. cbv zeta in Hstep, Hemit.
  assert (Hinv' : Forall (fun l => In l (table_labels ++ ["Uncertain"])%list)
                    (gestureHistoryRef
                       (snd (detectHands sensitivity smoothing canvasReady hands refs)))).
  { destruct Hstep as [-> | [k ->]]; [exact Hinv|].
    apply push_history_Forall; [exact Hinv | apply pushed_label_known]. }
  constructor; [|now apply IH].
  destruct (fst (detectHands sensitivity smoothing canvasReady hands refs)) as [e|];
    [|exact I].
  unfold emitted_labels.
  destruct (Hemit e eq_refl) as [-> | Hin].
  - apply in_or_app. right. right. now left.
  - rewrite List.Forall_forall in Hinv'. specialize (Hinv' _ Hin).
    apply in_app_or in Hinv' as [H|H]; apply in_or_app; [now left|].
    right. destruct H as [<-|[]]. now left.
Qed.

(** X12.  Whatever frames are processed after a restart, well-formed or not,
    every gesture handed to [onGestureDetected] is one of the thirteen
    labels of [emitted_labels]; ['OK Sign'] and ['Unknown'] never are. *)
Theorem emitted_gestures_known (frames : list (list Hand)) :
  Forall (fun ev => match ev with
                    | Some e => In (e_gesture e) emitted_labels /\
                                e_gesture e <> "OK Sign" /\ e_gesture e <> "Unknown"
                    | None => True
                    end)
         (run_events sensitivity smoothing canvasReady frames startTracking).
Proof.
  eapply List.Forall_impl; [|apply run_events_known; constructor].
  intros [e|] H; [|exact I]. split; [exact H|].
  unfold emitted_labels, table_labels in H. simpl in H.
  split; intros Heq; rewrite Heq in H;
    repeat (destruct H as [H|H]; [discriminate H|]); exact H.
Qed.

(** X13.  The first frame after a restart is neither smoothed nor debounced:
    the landmarks handed over are the raw keypoints and the gesture is
    the frame's own gated label. *)
Theorem first_frame_is_raw (hand : Hand) (rest : list Hand) :
  length (keypoints hand) = 21%nat ->
  exists k angles,
    key_landmarks (keypoints hand) = Normal k /\
    calculateFingerAngles (keypoints hand) = Normal angles /\
    fst (detectHands sensitivity smoothing canvasReady (hand :: rest) startTracking) =
      Some {| e_gesture := fst (apply_sensitivity sensitivity (decision_table k));
              e_confidence :=
                Rmax 0 (Rmin 1 (snd (apply_sensitivity sensitivity (decision_table k))));
              e_handData := Some {| hd_landmarks := keypoints hand;
                                    hd_angles := angles;
                                    hd_extendedFingers := extendedFingers k;
                                    hd_handedness := handedness hand |} |}.
Proof.
  intros Hlen.
  destruct (key_landmarks_total (keypoints hand)) as [k Hk]; [lia|].
  pose proof (smoothLandmarks_first smoothing startTracking (keypoints hand) 0
                (lookup_empty _)) as Hsm.
  destruct (detectAdvancedGesture_eval sensitivity smoothing hand rest startTracking _
              (keypoints hand) k _ _ _ Hsm Hk
              (surjective_pairing _) (mostCommon_singleton _)) as (angles & Ha & Hd).
  exists k, angles. split; [exact Hk|]. split; [exact Ha|].
  unfold detectHands. cbn [length Nat.ltb Nat.leb]. rewrite Hd. reflexivity.
Qed.

End Emission.

Lemma first_frame_is_raw_witness :
  exists k angles,
    key_landmarks (keypoints (hand_of pointing_frame)) = Normal k /\
    calculateFingerAngles (keypoints (hand_of pointing_frame)) = Normal angles /\
    fst (detectHands 0.7 0.8 true [hand_of pointing_frame] startTracking) =
      Some {| e_gesture := fst (apply_sensitivity 0.7 (decision_table k));
              e_confidence := Rmax 0 (Rmin 1 (snd (apply_sensitivity 0.7 (decision_table k))));
              e_handData := Some {| hd_landmarks := keypoints (hand_of pointing_frame);
                                    hd_angles := angles;
                                    hd_extendedFingers := extendedFingers k;
                                    hd_handedness := handedness (hand_of pointing_frame) |} |}.
Proof. apply (first_frame_is_raw 0.7 0.8 true (hand_of pointing_frame) []). reflexivity. Defined.

(** ** Hands beyond the first *)

Section OtherHands.

Variable sensitivity : R.
Variable smoothing : R.
Variable canvasReady : bool.

Lemma smoothLandmarks_same_view (cur : list HandLandmark) (refs1 refs2 : Refs) :
  smoothedLandmarksRef refs1 !! 0%nat = smoothedLandmarksRef refs2 !! 0%nat ->
  fst (smoothLandmarks smoothing cur 0 refs1) = fst (smoothLandmarks smoothing cur 0 refs2) /\
  smoothedLandmarksRef (snd (smoothLandmarks smoothing cur 0 refs1)) !! 0%nat
  = smoothedLandmarksRef (snd (smoothLandmarks smoothing cur 0 refs2)) !! 0%nat.
Proof.
  intros Hslot.
  destruct (smoothedLandmarksRef refs2 !! 0%nat) as [prev|] eqn:H2.
  - destruct (Nat.le_gt_cases (length cur) (length prev)) as [Hle|Hgt].
    + rewrite (smoothLandmarks_next smoothing refs1 prev cur 0 Hslot Hle),
        (smoothLandmarks_next smoothing refs2 prev cur 0 H2 Hle).
      simpl. rewrite !lookup_insert_eq. auto.
    + rewrite (smoothLandmarks_short smoothing refs1 prev cur 0 Hslot Hgt),
        (smoothLandmarks_short smoothing refs2 prev cur 0 H2 Hgt).
      simpl. rewrite Hslot, H2. auto.
  - rewrite (smoothLandmarks_first smoothing refs1 cur 0 Hslot),
      (smoothLandmarks_first smoothing refs2 cur 0 H2).
    simpl. rewrite !lookup_insert_eq. auto.
Qed.

Lemma detectAdvancedGesture_same_view
    (hand : Hand) (rest1 rest2 : list Hand) (refs1 refs2 : Refs) :
  same_view refs1 refs2 ->
  fst (detectAdvancedGesture sensitivity smoothing (hand :: rest1) refs1)
  = fst (detectAdvancedGesture sensitivity smoothing (hand :: rest2) refs2) /\
  same_view (snd (detectAdvancedGesture sensitivity smoothing (hand :: rest1) refs1))
            (snd (detectAdvancedGesture sensitivity smoothing (hand :: rest2) refs2)).
Proof.
  intros [Hh Hs].
  destruct (smoothLandmarks_same_view (keypoints hand) refs1 refs2 Hs) as [Hc Hs'].
  pose proof (smoothLandmarks_store smoothing (keypoints hand) 0 refs1) as [Hh1 _].
  pose proof (smoothLandmarks_store smoothing (keypoints hand) 0 refs2) as [Hh2 _].
  destruct (smoothLandmarks smoothing (keypoints hand) 0 refs1) as [c1 t1] eqn:E1.
  destruct (smoothLandmarks smoothing (keypoints hand) 0 refs2) as [c2 t2] eqn:E2.
  simpl in Hc, Hs', Hh1, Hh2. subst c2.
  unfold same_view.
  destruct c1 as [landmarks|].
  - destruct (key_landmarks landmarks) as [k|] eqn:Hk.
    + destruct (detectAdvancedGesture_frame sensitivity smoothing hand rest1
                  refs1 t1 landmarks k E1 Hk) as (a1 & w1 & Ha1 & Hw1 & Hd1).
      destruct (detectAdvancedGesture_frame sensitivity smoothing hand rest2
                  refs2 t2 landmarks k E2 Hk) as (a2 & w2 & Ha2 & Hw2 & Hd2).
      rewrite Hd1, Hd2. simpl.
      rewrite Ha1 in Ha2. injection Ha2 as <-.
      rewrite Hh1, Hh2, Hh in *. rewrite Hw1 in Hw2. injection Hw2 as <-. auto.
    + unfold detectAdvancedGesture, bind, lift. rewrite E1, E2, Hk.
      destruct (calculateFingerAngles landmarks); simpl; repeat split; congruence.
  - unfold detectAdvancedGesture, bind. rewrite E1, E2. simpl. repeat split; congruence.
Qed.

Lemma drawAdvancedHands_same_view (hands1 hands2 : list Hand) (refs1 refs2 : Refs) :
  head hands1 = head hands2 ->
  same_view refs1 refs2 ->
  same_view (snd (drawAdvancedHands smoothing canvasReady hands1 refs1))
            (snd (drawAdvancedHands smoothing canvasReady hands2 refs2)).
Proof.
  intros Hhead [Hh Hs]. unfold same_view, drawAdvancedHands.
  destruct canvasReady; [|split; assumption].
  destruct hands1 as [|hand rest1], hands2 as [|hand2 rest2]; try discriminate Hhead;
    [split; assumption|].
  injection Hhead as <-.
  destruct (draw_from_store smoothing (hand :: rest1) 0 refs1) as [Hd1 _].
  destruct (draw_from_store smoothing (hand :: rest2) 0 refs2) as [Hd2 _].
  split; [congruence|].
  destruct (smoothLandmarks_same_view (keypoints hand) refs1 refs2 Hs) as [Hc Hs'].
  cbn [draw_from]. unfold bind.
  destruct (smoothLandmarks smoothing (keypoints hand) 0 refs1) as [c1 t1].
  destruct (smoothLandmarks smoothing (keypoints hand) 0 refs2) as [c2 t2].
  simpl in Hc, Hs'. subst c2.
  destruct c1 as [lm|]; [|exact Hs'].
  destruct (skeleton_readable lm); simpl; [|exact Hs'].
  destruct (draw_from_store smoothing rest1 1 t1) as [_ H1].
  destruct (draw_from_store smoothing rest2 1 t2) as [_ H2].
  rewrite H1, H2 by lia. exact Hs'.
Qed.

Lemma detectHands_same_view (hands1 hands2 : list Hand) (refs1 refs2 : Refs) :
  head hands1 = head hands2 ->
  same_view refs1 refs2 ->
  fst (detectHands sensitivity smoothing canvasReady hands1 refs1)
  = fst (detectHands sensitivity smoothing canvasReady hands2 refs2) /\
  same_view (snd (detectHands sensitivity smoothing canvasReady hands1 refs1))
            (snd (detectHands sensitivity smoothing canvasReady hands2 refs2)).
Proof.
  intros Hhead Hview. unfold detectHands.
  destruct hands1 as [|hand rest1], hands2 as [|hand2 rest2]; try discriminate Hhead;
    cbn [length Nat.ltb Nat.leb fst snd].
  - split; [reflexivity | now apply drawAdvancedHands_same_view].
  - injection Hhead as <-.
    destruct (detectAdvancedGesture_same_view hand rest1 rest2 refs1 refs2 Hview)
      as [Hc Hv].
    destruct (detectAdvancedGesture sensitivity smoothing (hand :: rest1) refs1) as [c1 t1].
    destruct (detectAdvancedGesture sensitivity smoothing (hand :: rest2) refs2) as [c2 t2].
    simpl in Hc, Hv. subst c2.
    destruct c1 as [r|]; cbn [fst snd]; [|split; [reflexivity | exact Hv]].
    split; [reflexivity | now apply drawAdvancedHands_same_view].
Qed.

Lemma run_events_same_view (frames1 frames2 : list (list Hand)) :
  Forall2 (fun hands1 hands2 => head hands1 = head hands2) frames1 frames2 ->
  forall refs1 refs2, same_view refs1 refs2 ->
  run_events sensitivity smoothing canvasReady frames1 refs1
  = run_events sensitivity smoothing canvasReady frames2 refs2.
Proof.
  induction 1 as [|hands1 hands2 frames1 frames2 Hhead _ IH]; intros refs1 refs2 Hview;
    [reflexivity|].
  cbn [run_events].
  destruct (detectHands_same_view hands1 hands2 refs1 refs2 Hhead Hview) as [He Hv].
  rewrite He. f_equal. now apply IH.
Qed.

(** X14.  Only the first hand of a frame is ever classified: two runs whose
    frames agree on their first hand emit the same sequence of events,
    whatever other hands the frames hold (and whether these are
    well-formed or not). *)
Theorem other_hands_never_matter (frames1 frames2 : list (list Hand)) (refs : Refs) :
  Forall2 (fun hands1 hands2 => head hands1 = head hands2) frames1 frames2 ->
  run_events sensitivity smoothing canvasReady frames1 refs
  = run_events sensitivity smoothing canvasReady frames2 refs.
Proof.
  intros H. apply run_events_same_view; [exact H | split; reflexivity].
Qed.

End OtherHands.

Lemma other_hands_never_matter_witness :
  run_events 0.7 0.8 true
    [[hand_of pointing_frame; hand_of fist_frame]; [hand_of fist_frame]] startTracking
  = run_events 0.7 0.8 true
    [[hand_of pointing_frame]; [hand_of fist_frame; hand_of (replicate 3 (pt 0 0))]]
    startTracking.
Proof.
  apply (other_hands_never_matter 0.7 0.8 true).
  repeat constructor.
Defined.

Lemma run_frames_invariant_witness :
  let refs := run_frames 0.7 0.8 true
                [[hand_of pointing_frame]; []; [hand_of fist_frame; hand_of ok_sign_frame]]
                startTracking in
  slots_ok refs /\
  Forall (fun l => plain_label l = true) (gestureHistoryRef refs) /\
  (length (gestureHistoryRef refs) <= 5)%nat.
Proof.
  apply (run_frames_invariant 0.7 0.8 true).
  repeat constructor.
Defined.

(** ** The application state *)

Lemma handle_in_step (st : App.State) (c : App.Call) :
  App.in_step st -> App.in_step (App.handle st c).
Proof.
  unfold App.in_step, App.handle, App.handleGestureDetected.
  intros (Ht & Hh & Hs).
  destruct (negb (String.eqb (App.c_gesture c) (App.c_seen c))); simpl; [|auto].
  destruct (negb (String.eqb (App.c_gesture c) "No hands detected")
            && negb (String.eqb (App.c_gesture c) "Uncertain")); simpl; [|auto].
  rewrite !length_app. simpl. lia.
Qed.

(** X16.  Whatever calls the handler receives, [totalGestures], [handsDetected]
    and the number of recorded confidence scores all equal the length of
    the gesture history: the three statistics are one counter. *)
Theorem counters_track_history (calls : list App.Call) :
  App.in_step (fold_left App.handle calls App.initial).
Proof.
  assert (H : forall st, App.in_step st -> App.in_step (fold_left App.handle calls st)).
  { induction calls as [|c calls IH]; intros st Hst; [exact Hst|].
    simpl. apply IH. now apply handle_in_step. }
  apply H. unfold App.in_step. simpl. auto.
Qed.

Lemma handle_history (st : App.State) (c : App.Call) (g : string) :
  In g (App.gestureHistory (App.handle st c)) ->
  In g (App.gestureHistory st) \/
  (g = App.c_gesture c /\ g <> "No hands detected" /\ g <> "Uncertain").
Proof.
  unfold App.handle, App.handleGestureDetected.
  destruct (negb (String.eqb (App.c_gesture c) (App.c_seen c))); simpl; [|auto].
  destruct (String.eqb_spec (App.c_gesture c) "No hands detected") as [E1|N1];
    simpl; [auto|].
  destruct (String.eqb_spec (App.c_gesture c) "Uncertain") as [E2|N2]; simpl; [auto|].
  intros Hin. apply in_app_or in Hin as [Hin|[<-|[]]]; auto.
Qed.

(** X17.  The two sentinel labels are never recorded: neither ['No hands
    detected'] nor ['Uncertain'] enters the gesture history of the
    application, whatever the handler is called with. *)
Theorem sentinels_never_recorded (calls : list App.Call) :
  let st := fold_left App.handle calls App.initial in
  ~ In "No hands detected" (App.gestureHistory st) /\
  ~ In "Uncertain" (App.gestureHistory st).
Proof.
  cbv zeta.
  assert (H : forall st g, (g = "No hands detected" \/ g = "Uncertain") ->
            ~ In g (App.gestureHistory st) ->
            ~ In g (App.gestureHistory (fold_left App.handle calls st))).
  { induction calls as [|c calls IH]; intros st g Hg Hst; [exact Hst|].
    simpl. apply IH; [exact Hg|]. intros Hin.
    apply handle_history in Hin as [Hin|(_ & N1 & N2)]; [contradiction|].
    destruct Hg; contradiction. }
  split; apply H; simpl; auto.
Qed.

(** X18.  A gesture that is held is recorded once: when the handler has seen
    the current gesture, a second call with the same gesture leaves the
    history and the counters alone and only refreshes the confidence and
    the hand data. *)
Theorem held_gesture_counted_once
    (st : App.State) (g : string) (c1 c2 : option R) (h1 h2 : option HandData) :
  let st1 := App.handleGestureDetected (App.currentGesture st) g c1 h1 st in
  let st2 := App.handleGestureDetected (App.currentGesture st1) g c2 h2 st1 in
  App.currentGesture st1 = g /\
  App.gestureHistory st2 = App.gestureHistory st1 /\
  App.totalGestures st2 = App.totalGestures st1 /\
  App.confidenceScores st2 = App.confidenceScores st1 /\
  App.currentConfidence st2 = default 0 c2 /\
  App.handData st2 = h2.
Proof.
  cbv zeta.
  assert (H1 : App.currentGesture
                 (App.handleGestureDetected (App.currentGesture st) g c1 h1 st) = g).
  { unfold App.handleGestureDetected.
    destruct (String.eqb_spec g (App.currentGesture st)) as [->|N]; simpl; [reflexivity|].
    destruct (_ && _); reflexivity. }
  split; [exact H1|]. rewrite H1.
  set (st1 := App.handleGestureDetected (App.currentGesture st) g c1 h1 st).
  unfold App.handleGestureDetected. rewrite String.eqb_refl. simpl.
  repeat split; reflexivity.
Qed.

Lemma fold_Rplus_bounds (scores : list R) :
  Forall (fun c => 0 <= c <= 1) scores ->
  forall acc, acc <= fold_left Rplus scores acc <= acc + INR (length scores).
Proof.
  induction 1 as [|c scores Hc _ IH]; intros acc.
  - simpl. lra.
  - cbn [fold_left length]. rewrite S_INR. specialize (IH (acc + c)). lra.
Qed.

Lemma averageConfidence_bounds (scores : list R) :
  Forall (fun c => 0 <= c <= 1) scores ->
  0 <= App.averageConfidence scores <= 1.
Proof.
  intros H. unfold App.averageConfidence.
  destruct (Nat.ltb_spec 0 (length scores)) as [Hpos|Hz]; [|lra].
  pose proof (fold_Rplus_bounds scores H 0) as Hb.
  assert (Hn : 0 < INR (length scores)) by (apply lt_0_INR; exact Hpos).
  split.
  - apply Rmult_le_pos; [lra | left; now apply Rinv_0_lt_compat].
  - apply (Rmult_le_reg_r (INR (length scores))); [exact Hn|].
    unfold Rdiv. rewrite Rmult_assoc, Rinv_l by lra. lra.
Qed.

Section Session.

Variable sensitivity : R.
Variable smoothing : R.
Variable canvasReady : bool.

Lemma detectHands_confidence (hands : list Hand) (refs : Refs) (e : Emitted) :
  fst (detectHands sensitivity smoothing canvasReady hands refs) = Some e ->
  0 <= e_confidence e <= 1.
Proof.
  unfold detectHands.
  destruct hands as [|hand rest]; cbn [length Nat.ltb Nat.leb fst].
  - intros [= <-]. simpl. lra.
  - destruct (smoothLandmarks smoothing (keypoints hand) 0 refs)
      as [[landmarks|] refs1] eqn:Hsm.
    + destruct (key_landmarks landmarks) as [k|] eqn:Hk.
      * destruct (detectAdvancedGesture_frame sensitivity smoothing hand rest
                    refs refs1 landmarks k Hsm Hk) as (a & w & _ & _ & Hd).
        rewrite Hd. intros [= <-]. simpl. split.
        -- apply Rmax_l.
        -- apply Rmax_lub; [lra | apply Rmin_l].
      * unfold detectAdvancedGesture, bind, lift. rewrite Hsm, Hk.
        destruct (calculateFingerAngles landmarks); discriminate.
    + unfold detectAdvancedGesture, bind. rewrite Hsm. discriminate.
Qed.

Lemma run_events_confidence (frames : list (list Hand)) :
  forall refs,
  Forall (fun ev => match ev with
                    | Some e => 0 <= e_confidence e <= 1
                    | None => True
                    end)
         (run_events sensitivity smoothing canvasReady frames refs).
Proof.
  induction frames as [|hands frames IH]; intros refs; [constructor|].
  cbn [run_events]. constructor; [|apply IH].
  destruct (fst (detectHands sensitivity smoothing canvasReady hands refs)) as [e|] eqn:E;
    [|exact I].
  eapply detectHands_confidence; eassumption.
Qed.

Lemma deliver_scores (st : App.State) (p : string * option Emitted) :
  match snd p with Some e => 0 <= e_confidence e <= 1 | None => True end ->
  Forall (fun c => 0 <= c <= 1) (App.confidenceScores st) ->
  Forall (fun c => 0 <= c <= 1) (App.confidenceScores (deliver st p)).
Proof.
  unfold deliver, App.handleGestureDetected. destruct (snd p) as [e|]; [|auto].
  intros He Hst.
  destruct (negb (String.eqb (e_gesture e) (fst p))); simpl; [|exact Hst].
  destruct (_ && _); simpl; [|exact Hst].
  apply Forall_app. split; [exact Hst|]. constructor; [exact He | constructor].
Qed.

(** X19.  The average confidence shown by the statistics panel is a fraction:
    whatever frames the tracker processes after a restart and whichever
    closure of the handler receives each event, [averageConfidence] of
    the recorded scores lies between 0 and 1. *)
Theorem average_confidence_is_a_fraction
    (frames : list (list Hand)) (seens : list string) :
  let events := run_events sensitivity smoothing canvasReady frames startTracking in
  let st := fold_left deliver (combine seens events) App.initial in
  0 <= App.averageConfidence (App.confidenceScores st) <= 1.
Proof.
  cbv zeta. apply averageConfidence_bounds.
  pose proof (run_events_confidence frames startTracking) as Hev.
  set (events := run_events sensitivity smoothing canvasReady frames startTracking) in *.
  assert (Hgen : forall calls st,
            Forall (fun p : string * option Emitted =>
                      match snd p with
                      | Some e => 0 <= e_confidence e <= 1
                      | None => True
                      end) calls ->
            Forall (fun c => 0 <= c <= 1) (App.confidenceScores st) ->
            Forall (fun c => 0 <= c <= 1)
                   (App.confidenceScores (fold_left deliver calls st))).
  { induction calls as [|p calls IH]; intros st Hc Hst; [exact Hst|].
    inversion_clear Hc as [|? ? Hp Hrest]. simpl. apply IH; [exact Hrest|].
    now apply deliver_scores. }
  apply Hgen; [|constructor].
  clear Hgen. revert seens. induction Hev as [|ev events' Hev' _ IH]; intros seens.
  - destruct seens; constructor.
  - destruct seens as [|seen seens]; [constructor|].
    simpl. constructor; [exact Hev' | apply IH].
Qed.

End Session.

(** ** The gesture panel *)

Lemma Rgeb_true (a b : R) : a >= b -> GestureDisplay.Rgeb a b = true.
Proof.
  intros H. unfold GestureDisplay.Rgeb. destruct (Rge_dec a b); [reflexivity|contradiction].
Qed.

Lemma Rgeb_false (a b : R) : a < b -> GestureDisplay.Rgeb a b = false.
Proof.
  intros H. unfold GestureDisplay.Rgeb. destruct (Rge_dec a b); [lra|reflexivity].
Qed.

(** X20.  The confidence label, the colour of the percentage and the colour of
    the bar are cut at the same thresholds: the three always name the
    same one of the four bands. *)
Theorem confidence_bands_agree (conf : R) :
  (0.8 <= conf /\
   GestureDisplay.getConfidenceLabel conf = "High" /\
   GestureDisplay.getConfidenceColor conf = "text-green-600" /\
   GestureDisplay.barColor conf = "bg-green-500") \/
  (0.6 <= conf < 0.8 /\
   GestureDisplay.getConfidenceLabel conf = "Medium" /\
   GestureDisplay.getConfidenceColor conf = "text-yellow-600" /\
   GestureDisplay.barColor conf = "bg-yellow-500") \/
  (0.4 <= conf < 0.6 /\
   GestureDisplay.getConfidenceLabel conf = "Low" /\
   GestureDisplay.getConfidenceColor conf = "text-orange-600" /\
   GestureDisplay.barColor conf = "bg-orange-500") \/
  (conf < 0.4 /\
   GestureDisplay.getConfidenceLabel conf = "Very Low" /\
   GestureDisplay.getConfidenceColor conf = "text-red-600" /\
   GestureDisplay.barColor conf = "bg-red-500").
Proof.
  unfold GestureDisplay.getConfidenceLabel, GestureDisplay.getConfidenceColor,
    GestureDisplay.barColor.
  destruct (Rle_lt_dec 0.8 conf) as [H8|H8].
  { left. rewrite !Rgeb_true by lra. auto. }
  right. rewrite !(Rgeb_false conf 0.8) by lra.
  destruct (Rle_lt_dec 0.6 conf) as [H6|H6].
  { left. rewrite !Rgeb_true by lra. split; [lra | auto]. }
  right. rewrite !(Rgeb_false conf 0.6) by lra.
  destruct (Rle_lt_dec 0.4 conf) as [H4|H4].
  { left. rewrite !Rgeb_true by lra. split; [lra | auto]. }
  right. rewrite !(Rgeb_false conf 0.4) by lra. auto.
Qed.

Lemma emitted_label_icon (l : string) :
  In l emitted_labels -> GestureDisplay.getGestureIcon l <> GestureDisplay.default_icon.
Proof.
  unfold emitted_labels, table_labels. simpl. intros H.
  repeat (destruct H as [<-|H]; [vm_compute; discriminate|]). destruct H.
Qed.

(** X21.  Every gesture the tracker can emit has an icon of its own in the
    panel: over any run of frames after a restart, [getGestureIcon]
    never falls through to its default for an emitted gesture. *)
Theorem emitted_gesture_has_icon
    (sensitivity smoothing : R) (canvasReady : bool) (frames : list (list Hand)) :
  Forall (fun ev => match ev with
                    | Some e => GestureDisplay.getGestureIcon (e_gesture e)
                                <> GestureDisplay.default_icon
                    | None => True
                    end)
         (run_events sensitivity smoothing canvasReady frames startTracking).
Proof.
  eapply List.Forall_impl;
    [|apply (run_events_known sensitivity smoothing canvasReady frames startTracking);
      constructor].
  intros [e|] H; [|exact I]. now apply emitted_label_icon.
Qed.

(** ** The statistics panel *)

Lemma split_colon_app (a b : string) :
  (forall c, In c (list_ascii_of_string a) -> c <> ":"%char) ->
  Stats.split_colon (a ++ String ":" b) = Some (a, b).
Proof.
  induction a as [|c a IH]; intros Hno; simpl.
  - reflexivity.
  - destruct (Ascii.eqb_spec c ":") as [->|_].
    + exfalso. apply (Hno ":"%char); [now left | reflexivity].
    + rewrite IH; [reflexivity|]. intros c' Hc'. apply Hno. now right.
Qed.

Lemma string_of_uint_no_colon (d : Decimal.uint) :
  forall c, In c (list_ascii_of_string (NilEmpty.string_of_uint d)) -> c <> ":"%char.
Proof.
  induction d; simpl; intros c Hc; try contradiction;
    (destruct Hc as [<-|Hc]; [discriminate | now apply IHd]).
Qed.

Lemma parse_nat_string_of_nat (m : nat) : Stats.parse_nat (string_of_nat m) = Some m.
Proof.
  unfold Stats.parse_nat, string_of_nat. rewrite NilEmpty.usu.
  now rewrite DecimalNat.Unsigned.of_to.
Qed.

Lemma parse_nat_seconds (r : nat) :
  (r < 60)%nat -> Stats.parse_nat (Stats.padStart 2 "0" (string_of_nat r)) = Some r.
Proof.
  intros H. do 60 (destruct r as [|r]; [reflexivity|]). lia.
Qed.

(** X22.  [formatTime] loses nothing: the minutes before the colon and the
    two-digit seconds after it give back the number of seconds, so that
    different session times are displayed differently. *)
Theorem formatTime_round_trip (seconds : nat) :
  Stats.parseTime (Stats.formatTime seconds) = Some seconds.
Proof.
  unfold Stats.parseTime, Stats.formatTime. cbv zeta.
  change (":" ++ ?s) with (String ":" s).
  rewrite split_colon_app by apply string_of_uint_no_colon.
  rewrite parse_nat_string_of_nat, parse_nat_seconds by (apply Nat.mod_upper_bound; lia).
  f_equal. pose proof (Nat.div_mod_eq seconds 60). lia.
Qed.

(** ** The smoother and the store *)

(** X3.  A call of the smoother for one slot never touches the gesture
    history or the state of another slot, and when it throws it has
    written nothing at all. *)
Theorem smoothing_is_per_slot
    (smoothing : R) (cur : list HandLandmark) (slot : nat) (refs : Refs) :
  let out := smoothLandmarks smoothing cur slot refs in
  gestureHistoryRef (snd out) = gestureHistoryRef refs /\
  (forall j, j <> slot ->
     smoothedLandmarksRef (snd out) !! j = smoothedLandmarksRef refs !! j) /\
  (fst out = TypeError -> snd out = refs).
Proof.
  cbv zeta.
  destruct (smoothLandmarks_store smoothing cur slot refs) as [Hh Hs].
  split; [exact Hh|]. split; [exact Hs|].
  destruct (smoothedLandmarksRef refs !! slot) as [prev|] eqn:Hslot.
  - destruct (Nat.le_gt_cases (length cur) (length prev)) as [Hle|Hgt].
    + rewrite (smoothLandmarks_next _ _ _ _ _ Hslot Hle). discriminate.
    + rewrite (smoothLandmarks_short _ _ _ _ _ Hslot Hgt). reflexivity.
  - rewrite (smoothLandmarks_first _ _ _ _ Hslot). discriminate.
Qed.
